(** * Global search of the methodology application

    A shallow embedding of [methodology/services/global_search_service.py]
    and of the two handlers of [methodology/views.py] that call it
    ([global_search] and [global_search_suggestions]), with the properties
    of the search contract proved about it.

    Python strings are Rocq strings (characters are code points below 256),
    the filters dict is a finite map from strings to Python values, a
    database state is three tables of rows, and the effects of the code
    (log records, queries sent to the database) are threaded through a
    small state monad over a [World]. *)

From stdpp Require Import base decidable option list sorting gmap strings.
From Stdlib Require Import ZArith Ascii String.

Local Open Scope string_scope.
Local Open Scope Z_scope.

(** ** Python strings *)

Module PyStr.

(** [str.isspace] on one character, for code points below 256: the
    characters [str.strip] removes when called without argument. *)
Definition is_space (a : ascii) : bool :=
  let n := N_of_ascii a in
  ((9 <=? n) && (n <=? 13) || (28 <=? n) && (n <=? 32)
   || (n =? 133) || (n =? 160))%N.

Fixpoint lstrip (s : string) : string :=
  match s with
  | EmptyString => EmptyString
  | String a s' => if is_space a then lstrip s' else s
  end.

Fixpoint rstrip (s : string) : string :=
  match s with
  | EmptyString => EmptyString
  | String a s' =>
      match rstrip s' with
      | EmptyString => if is_space a then EmptyString else String a EmptyString
      | r => String a r
      end
  end.

(** [s.strip()] *)
Definition strip (s : string) : string := rstrip (lstrip s).

(** Case folding of the letters A-Z, as the database does for a
    case-insensitive LIKE. *)
Definition lower_ascii (a : ascii) : ascii :=
  let n := N_of_ascii a in
  if ((65 <=? n) && (n <=? 90))%N then ascii_of_N (n + 32) else a.

Fixpoint lower (s : string) : string :=
  match s with
  | EmptyString => EmptyString
  | String a s' => String (lower_ascii a) (lower s')
  end.

(** [needle in hay] *)
Fixpoint contains (needle hay : string) : bool :=
  match hay with
  | EmptyString => String.prefix needle EmptyString
  | String _ hay' => String.prefix needle hay || contains needle hay'
  end.

(** The NUL character, and the text before the first one: what the
    database's LIKE reads of a value or of a pattern, both C strings to
    it. *)
Definition is_nul (a : ascii) : bool := (N_of_ascii a =? 0)%N.

Fixpoint has_nul (s : string) : bool :=
  match s with
  | EmptyString => false
  | String a s' => is_nul a || has_nul s'
  end.

Fixpoint c_string (s : string) : string :=
  match s with
  | EmptyString => EmptyString
  | String a s' => if is_nul a then EmptyString else String a (c_string s')
  end.

(** [hay.endswith(needle)] *)
Fixpoint ends_with (needle hay : string) : bool :=
  match hay with
  | EmptyString => String.eqb needle EmptyString
  | String _ hay' => String.eqb needle hay || ends_with needle hay'
  end.

(** The [__icontains] lookup, [field LIKE '%query%'] with the letters
    A-Z folded: a case-insensitive substring test, for a query without
    NUL. A NUL in the query ends the pattern, the closing [%] included:
    what is left is [field LIKE '%prefix'], a test on the end of the
    field. *)
Definition icontains (field query : string) : bool :=
  let subject := lower (c_string field) in
  if has_nul query then ends_with (lower (c_string query)) subject
  else contains (lower query) subject.

End PyStr.

(** ** Python values held by the filters dict

    [filters] is an [Optional[Dict[str, Any]]]; both callers fill it with
    request parameters, which are strings, so the values modelled are
    [None] and strings. *)

Inductive PyVal : Type :=
| PyNone
| PyString (s : string).

Global Instance PyVal_eq_dec : EqDecision PyVal.
Proof. solve_decision. Defined.

(** Truth value of a Python value ([if v:]). *)
Definition truthy (v : PyVal) : bool :=
  match v with
  | PyNone => false
  | PyString s => negb (String.eqb s "")
  end.

(** [v == s] for a string literal [s]. *)
Definition py_eq_str (v : option PyVal) (s : string) : bool :=
  match v with
  | Some (PyString s') => String.eqb s' s
  | _ => false
  end.

Abbreviation Filters := (gmap string PyVal).

(** ** Data model *)

(** Modelled from the spec: [django.contrib.auth.models.User] is outside
    the repository; a user is its primary key and its username. *)
Record User : Type := mkUser {
  user_id : Z;
  username : string;
}.

(** Modelled from the spec: [methodology/models.py] is not among the
    sources. The rows carry the fields the search reads: primary key,
    text fields, the foreign key to the owner or parent, and the sort
    fields. *)
Record Playbook : Type := mkPlaybook {
  pb_id : Z;
  pb_name : string;
  pb_description : string;
  pb_category : string;
  pb_status : string;
  pb_source : string;
  pb_author : Z;          (* foreign key to User *)
  pb_updated_at : Z;      (* timestamp *)
}.

Record Workflow : Type := mkWorkflow {
  wf_id : Z;
  wf_playbook : Z;        (* foreign key to Playbook *)
  wf_name : string;
  wf_description : string;
  wf_order : Z;
}.

Record Activity : Type := mkActivity {
  act_id : Z;
  act_workflow : Z;       (* foreign key to Workflow *)
  act_name : string;
  act_guidance : string;
  act_order : Z;
}.

Global Instance Playbook_eq_dec : EqDecision Playbook.
Proof. solve_decision. Defined.
Global Instance Workflow_eq_dec : EqDecision Workflow.
Proof. solve_decision. Defined.
Global Instance Activity_eq_dec : EqDecision Activity.
Proof. solve_decision. Defined.

(** A database state: the rows of the three tables, in storage order. *)
Record Database : Type := mkDatabase {
  db_playbooks : list Playbook;
  db_workflows : list Workflow;
  db_activities : list Activity;
}.

(** Following a foreign key: the row with the given primary key. *)
Definition playbook_by_id (db : Database) (k : Z) : option Playbook :=
  List.find (fun p => pb_id p =? k) (db_playbooks db).

Definition workflow_by_id (db : Database) (k : Z) : option Workflow :=
  List.find (fun w => wf_id w =? k) (db_workflows db).

(** [workflow.playbook.author], [activity.workflow.playbook.author] *)
Definition workflow_author (db : Database) (w : Workflow) : option Z :=
  pb_author <$> playbook_by_id db (wf_playbook w).

Definition activity_author (db : Database) (a : Activity) : option Z :=
  workflow_by_id db (act_workflow a) ≫= workflow_author db.

(** ** The persistence layer

    The part of the object-relational mapper the service uses. A
    [QuerySet] is lazy: building one sends nothing to the database; it
    says which table it reads and which rows a database state gives. *)

Inductive Model : Type := MPlaybook | MWorkflow | MActivity.

Global Instance Model_eq_dec : EqDecision Model.
Proof. solve_decision. Defined.

Record QuerySet (A : Type) : Type := mkQuerySet {
  qs_model : Model;
  qs_rows : Database → list A;
}.
Arguments mkQuerySet {A} _ _.
Arguments qs_model {A} _.
Arguments qs_rows {A} _ _.

(** [Playbook.objects], [Workflow.objects], [Activity.objects] *)
Definition Playbook_objects : QuerySet Playbook := mkQuerySet MPlaybook db_playbooks.
Definition Workflow_objects : QuerySet Workflow := mkQuerySet MWorkflow db_workflows.
Definition Activity_objects : QuerySet Activity := mkQuerySet MActivity db_activities.

(** [qs.filter(cond)]; a condition may follow foreign keys, so it reads
    the database state. *)
Definition qs_filter {A} (cond : Database → A → bool) (qs : QuerySet A) : QuerySet A :=
  mkQuerySet (qs_model qs)
    (fun db => filter (fun x => Is_true (cond db x)) (qs_rows qs db)).

(** Sorting as the database does for ORDER BY: rows with equal sort keys
    stay in the order of the table. *)
Fixpoint insert_by {A} (R : relation A) `{!RelDecision R} (x : A) (l : list A)
    : list A :=
  match l with
  | [] => [x]
  | y :: l' => if decide (R x y) then x :: l else y :: insert_by R x l'
  end.

Definition stable_sort {A} (R : relation A) `{!RelDecision R} (l : list A)
    : list A :=
  foldr (insert_by R) [] l.

(** [qs.order_by(...)], for an ordering given as a decidable relation. *)
Definition qs_order_by {A} (R : relation A) `{!RelDecision R}
    (qs : QuerySet A) : QuerySet A :=
  mkQuerySet (qs_model qs) (fun db => stable_sort R (qs_rows qs db)).

(** Field lookups. *)
Definition exact (field : string) (v : PyVal) : bool :=
  match v with
  | PyString s => String.eqb field s
  | PyNone => false
  end.

(** [order_by("-updated_at")] *)
Definition by_updated_desc : relation Playbook :=
  fun p1 p2 => pb_updated_at p2 ≤ pb_updated_at p1.

(** Modelled from the spec: ordering by the foreign key ["playbook"]
    (resp. ["workflow"]) is ordering by the parent's identity, its
    primary key; [methodology/models.py], which could declare another
    default ordering for the parent, is not among the sources. *)
Definition by_playbook_order : relation Workflow :=
  fun w1 w2 => wf_playbook w1 < wf_playbook w2
    ∨ (wf_playbook w1 = wf_playbook w2 ∧ wf_order w1 ≤ wf_order w2).

Definition by_workflow_order : relation Activity :=
  fun a1 a2 => act_workflow a1 < act_workflow a2
    ∨ (act_workflow a1 = act_workflow a2 ∧ act_order a1 ≤ act_order a2).

Global Instance by_updated_desc_dec : RelDecision by_updated_desc.
Proof. intros p1 p2. unfold by_updated_desc. apply _. Defined.
Global Instance by_playbook_order_dec : RelDecision by_playbook_order.
Proof. intros w1 w2. unfold by_playbook_order. apply _. Defined.
Global Instance by_workflow_order_dec : RelDecision by_workflow_order.
Proof. intros a1 a2. unfold by_workflow_order. apply _. Defined.

(** ** Effects: the log and the queries sent to the database *)

Inductive LogRecord : Type :=
| LogSearchEmptyQuery (user : string)
| LogSearchStarted (user query : string) (filters : Filters)
| LogSearchFinished (user query : string) (playbooks workflows activities : nat)
| LogViewRequested (user query : string) (filters : Filters)
| LogViewCompleted (user query : string) (playbooks workflows activities : nat)
| LogSuggestionsEmptyQuery (user : string)
| LogSuggestionsRequested (user query : string)
| LogSuggestionsLimited (user query : string) (playbooks workflows activities : nat).

Record World : Type := mkWorld {
  w_db : Database;               (* the persistence state *)
  w_log : list LogRecord;        (* records emitted so far *)
  w_queries : list Model;        (* queries executed so far, oldest first *)
}.

Definition M (A : Type) : Type := World → A * World.

Global Instance M_ret : MRet M := fun A x w => (x, w).
Global Instance M_bind : MBind M := fun A B f m w =>
  let '(x, w') := m w in f x w'.

(** [logger.info(...)] *)
Definition log_info (r : LogRecord) : M unit :=
  fun w => (tt, mkWorld (w_db w) (w_log w ++ [r]) (w_queries w)).

(** [list(qs)]: the query set is evaluated, one query is executed. *)
Definition list_qs {A} (qs : QuerySet A) : M (list A) :=
  fun w => (qs_rows qs (w_db w),
            mkWorld (w_db w) (w_log w) (w_queries w ++ [qs_model qs])).

(** ** [GlobalSearchService] *)

Record SearchResults : Type := mkResults {
  playbooks : list Playbook;
  workflows : list Workflow;
  activities : list Activity;
}.

Definition _search_playbooks (query : string) (user : User) (filters : Filters)
    : QuerySet Playbook :=
  let base_qs := qs_filter (fun _ p => pb_author p =? user_id user) Playbook_objects in
  let status := filters !! "status" in
  let base_qs :=
    match status with
    | Some v => if truthy v then qs_filter (fun _ p => exact (pb_status p) v) base_qs
                else base_qs
    | None => base_qs
    end in
  let source := filters !! "source" in
  let base_qs :=
    match source with
    | Some v => if truthy v then qs_filter (fun _ p => exact (pb_source p) v) base_qs
                else base_qs
    | None => base_qs
    end in
  qs_order_by by_updated_desc
    (qs_filter (fun _ p => PyStr.icontains (pb_name p) query
                           || PyStr.icontains (pb_description p) query) base_qs).

Definition _search_workflows (query : string) (user : User) (filters : Filters)
    : QuerySet Workflow :=
  let base_qs :=
    qs_filter (fun db w => bool_decide (workflow_author db w = Some (user_id user)))
      Workflow_objects in
  qs_order_by by_playbook_order
    (qs_filter (fun _ w => PyStr.icontains (wf_name w) query
                           || PyStr.icontains (wf_description w) query) base_qs).

Definition _search_activities (query : string) (user : User) (filters : Filters)
    : QuerySet Activity :=
  let base_qs :=
    qs_filter (fun db a => bool_decide (activity_author db a = Some (user_id user)))
      Activity_objects in
  qs_order_by by_workflow_order
    (qs_filter (fun _ a => PyStr.icontains (act_name a) query
                           || PyStr.icontains (act_guidance a) query) base_qs).

Definition search (query : option string) (user : User) (filters : option Filters)
    : M SearchResults :=
  let filters := default ∅ filters in
  let normalized_query := PyStr.strip (default "" query) in
  if String.eqb normalized_query "" then
    log_info (LogSearchEmptyQuery (username user));;
    mret (mkResults [] [] [])
  else
    log_info (LogSearchStarted (username user) normalized_query filters);;
    let playbooks_qs := _search_playbooks normalized_query user filters in
    let workflows_qs := _search_workflows normalized_query user filters in
    let activities_qs := _search_activities normalized_query user filters in
    playbooks ← list_qs playbooks_qs;
    workflows ← list_qs workflows_qs;
    activities ← list_qs activities_qs;
    let type_filter := filters !! "type" in
    let '(playbooks, workflows, activities) :=
      if py_eq_str type_filter "playbooks" then (playbooks, [], [])
      else if py_eq_str type_filter "workflows" then ([], workflows, [])
      else if py_eq_str type_filter "activities" then ([], [], activities)
      else (playbooks, workflows, activities) in
    log_info (LogSearchFinished (username user) normalized_query
                (List.length playbooks) (List.length workflows)
                (List.length activities));;
    mret (mkResults playbooks workflows activities).

(** ** The two handlers of [methodology/views.py] *)

Record HttpRequest : Type := mkRequest {
  req_user : option User;              (* [None]: an anonymous caller *)
  req_GET : gmap string string;        (* the query parameters *)
}.

(** The context handed to the template [search/results.html]. *)
Record ResultsContext : Type := mkResultsContext {
  rc_query : string;
  rc_playbooks : list Playbook;
  rc_workflows : list Workflow;
  rc_activities : list Activity;
  rc_type_filter : string;
  rc_status_filter : string;
  rc_source_filter : string;
}.

(** The context handed to [search/partials/suggestions.html]. *)
Record SuggestionsContext : Type := mkSuggestionsContext {
  sc_query : string;
  sc_playbooks : list Playbook;
  sc_workflows : list Workflow;
  sc_activities : list Activity;
}.

Inductive HttpResponse : Type :=
| RedirectToLogin
| RenderResults (context : ResultsContext)
| RenderSuggestions (context : SuggestionsContext).

(** The [@login_required] decorator. *)
Definition login_required (view : User → HttpRequest → M HttpResponse)
    (request : HttpRequest) : M HttpResponse :=
  match req_user request with
  | Some user => view user request
  | None => mret RedirectToLogin
  end.

(** [filters[key] = value] when [value] is a non-empty string. *)
Definition set_if_nonempty (key value : string) (filters : Filters) : Filters :=
  if String.eqb value "" then filters else <[key := PyString value]> filters.

Definition global_search_view (user : User) (request : HttpRequest) : M HttpResponse :=
  let query := PyStr.strip (default "" (req_GET request !! "q")) in
  let type_filter := default "" (req_GET request !! "type") in
  let status_filter := default "" (req_GET request !! "status") in
  let source_filter := default "" (req_GET request !! "source") in
  let filters : Filters := ∅ in
  let filters := set_if_nonempty "type" type_filter filters in
  let filters := set_if_nonempty "status" status_filter filters in
  let filters := set_if_nonempty "source" source_filter filters in
  log_info (LogViewRequested (username user) query filters);;
  results ← search (Some query) user (Some filters);
  log_info (LogViewCompleted (username user) query
              (List.length (playbooks results)) (List.length (workflows results))
              (List.length (activities results)));;
  mret (RenderResults
          (mkResultsContext query (playbooks results) (workflows results)
             (activities results) type_filter status_filter source_filter)).

Definition global_search : HttpRequest → M HttpResponse :=
  login_required global_search_view.

Definition global_search_suggestions_view (user : User) (request : HttpRequest)
    : M HttpResponse :=
  let query := PyStr.strip (default "" (req_GET request !! "q")) in
  if String.eqb query "" then
    log_info (LogSuggestionsEmptyQuery (username user));;
    mret (RenderSuggestions (mkSuggestionsContext query [] [] []))
  else
    log_info (LogSuggestionsRequested (username user) query);;
    results ← search (Some query) user None;
    let playbooks := take 5 (playbooks results) in
    let workflows := take 5 (workflows results) in
    let activities := take 5 (activities results) in
    log_info (LogSuggestionsLimited (username user) query
                (List.length playbooks) (List.length workflows)
                (List.length activities));;
    mret (RenderSuggestions (mkSuggestionsContext query playbooks workflows activities)).

Definition global_search_suggestions : HttpRequest → M HttpResponse :=
  login_required global_search_suggestions_view.

(** ** Sample data, as the tests of the repository create it *)

Module Sample.

Definition maria : User := mkUser 1 "maria".
Definition sam : User := mkUser 2 "sam".

Definition component_playbook : Playbook :=
  mkPlaybook 1 "Component Development Playbook" "Playbook for components"
    "development" "draft" "owned" 1 100.

Definition component_workflow : Workflow :=
  mkWorkflow 1 1 "Component Workflow" "Workflow for components" 1.

Definition create_component : Activity :=
  mkActivity 1 1 "Create Component" "Do component work" 1.

Definition db : Database :=
  mkDatabase [component_playbook] [component_workflow] [create_component].

Definition world : World := mkWorld db [] [].

(** Eight matching playbooks of one author, updated at 1..8. *)
Definition numbered_playbook (n : Z) : Playbook :=
  mkPlaybook n "Component guide" "" "development" "active" "owned" 1 n.

Definition eight : World :=
  mkWorld (mkDatabase (numbered_playbook <$> [1; 2; 3; 4; 5; 6; 7; 8]) [] []) [] [].

End Sample.

(** * The vocabulary of the contract *)

(** A string made of whitespace only. *)
Fixpoint all_space (s : string) : bool :=
  match s with
  | EmptyString => true
  | String a s' => PyStr.is_space a && all_space s'
  end.

(** ** What a lookup returns

    The predicates [playbook_matches], [workflow_matches] and
    [activity_matches] say which rows a lookup selects, with the text test
    of the database. The predicates [playbook_fits], [workflow_fits] and
    [activity_fits] follow the words of the contract: the text test is the
    case-insensitive substring test. The two agree on text without NUL
    characters. *)

(** The restriction a filter value puts on a field: none when the value is
    absent or empty, equality otherwise. *)
Definition restricts (filters : Filters) (key field : string) : Prop :=
  match filters !! key with
  | Some v => if truthy v then v = PyString field else True
  | None => True
  end.

Global Instance restricts_dec filters key field : Decision (restricts filters key field).
Proof.
  unfold restricts. destruct (filters !! key) as [v|]; [destruct (truthy v)|]; apply _.
Defined.

(** A playbook in the scope of [user] that matches [query] and the
    [status] and [source] filters. *)
Definition playbook_matches (query : string) (user : User) (filters : Filters)
    (p : Playbook) : Prop :=
  pb_author p = user_id user
  ∧ (PyStr.icontains (pb_name p) query ∨ PyStr.icontains (pb_description p) query)
  ∧ restricts filters "status" (pb_status p)
  ∧ restricts filters "source" (pb_source p).

(** A workflow of a playbook of [user] that matches [query]. *)
Definition workflow_matches (db : Database) (query : string) (user : User)
    (w : Workflow) : Prop :=
  workflow_author db w = Some (user_id user)
  ∧ (PyStr.icontains (wf_name w) query ∨ PyStr.icontains (wf_description w) query).

(** An activity of a workflow of a playbook of [user] that matches [query]. *)
Definition activity_matches (db : Database) (query : string) (user : User)
    (a : Activity) : Prop :=
  activity_author db a = Some (user_id user)
  ∧ (PyStr.icontains (act_name a) query ∨ PyStr.icontains (act_guidance a) query).

Global Instance playbook_matches_dec query user filters p :
  Decision (playbook_matches query user filters p).
Proof. unfold playbook_matches. apply _. Defined.
Global Instance workflow_matches_dec db query user w :
  Decision (workflow_matches db query user w).
Proof. unfold workflow_matches. apply _. Defined.
Global Instance activity_matches_dec db query user a :
  Decision (activity_matches db query user a).
Proof. unfold activity_matches. apply _. Defined.

(** [query in field], letter case aside. *)
Definition contains_ignoring_case (field query : string) : bool :=
  PyStr.contains (PyStr.lower query) (PyStr.lower field).

(** Text without a NUL character. *)
Definition nul_free (s : string) : Prop := PyStr.has_nul s = false.

(** A database state whose searched text fields hold no NUL character. *)
Definition text_nul_free (db : Database) : Prop :=
  Forall (fun p => nul_free (pb_name p) ∧ nul_free (pb_description p)) (db_playbooks db)
  ∧ Forall (fun x => nul_free (wf_name x) ∧ nul_free (wf_description x)) (db_workflows db)
  ∧ Forall (fun a => nul_free (act_name a) ∧ nul_free (act_guidance a)) (db_activities db).

(** A playbook of [user] whose name or description contains [query], and
    which has the status and the source the filters ask for. *)
Definition playbook_fits (query : string) (user : User) (filters : Filters)
    (p : Playbook) : Prop :=
  pb_author p = user_id user
  ∧ (contains_ignoring_case (pb_name p) query
     ∨ contains_ignoring_case (pb_description p) query)
  ∧ restricts filters "status" (pb_status p)
  ∧ restricts filters "source" (pb_source p).

(** A workflow of a playbook of [user] whose name or description contains
    [query]. *)
Definition workflow_fits (db : Database) (query : string) (user : User)
    (w : Workflow) : Prop :=
  workflow_author db w = Some (user_id user)
  ∧ (contains_ignoring_case (wf_name w) query
     ∨ contains_ignoring_case (wf_description w) query).

(** An activity of a workflow of a playbook of [user] whose name or
    guidance contains [query]. *)
Definition activity_fits (db : Database) (query : string) (user : User)
    (a : Activity) : Prop :=
  activity_author db a = Some (user_id user)
  ∧ (contains_ignoring_case (act_name a) query
     ∨ contains_ignoring_case (act_guidance a) query).

Global Instance playbook_fits_dec query user filters p :
  Decision (playbook_fits query user filters p).
Proof. unfold playbook_fits. apply _. Defined.
Global Instance workflow_fits_dec db query user w :
  Decision (workflow_fits db query user w).
Proof. unfold workflow_fits. apply _. Defined.
Global Instance activity_fits_dec db query user a :
  Decision (activity_fits db query user a).
Proof. unfold activity_fits. apply _. Defined.

(** ** What a call computes *)

(** The query after [(query or "").strip()]. *)
Definition normalized (query : option string) : string :=
  PyStr.strip (default "" query).

(** The three lists as the lookups give them for a database state. *)
Definition looked_up (query : string) (user : User) (filters : Filters)
    (db : Database) : SearchResults :=
  mkResults (qs_rows (_search_playbooks query user filters) db)
            (qs_rows (_search_workflows query user filters) db)
            (qs_rows (_search_activities query user filters) db).

(** The lists kept for a value of [filters.get("type")]. *)
Definition kept (type_filter : option PyVal) (r : SearchResults) : SearchResults :=
  if py_eq_str type_filter "playbooks" then mkResults (playbooks r) [] []
  else if py_eq_str type_filter "workflows" then mkResults [] (workflows r) []
  else if py_eq_str type_filter "activities" then mkResults [] [] (activities r)
  else r.

(** What a filter key asks of the playbook lookup: its value when that
    value is truthy. *)
Definition restriction (filters : Filters) (key : string) : option PyVal :=
  match filters !! key with
  | Some v => if truthy v then Some v else None
  | None => None
  end.

(** The type values [search] compares the type filter with. *)
Definition known_types : list string := ["playbooks"; "workflows"; "activities"].

(** * The dashboard handlers of [methodology/views.py]

    [dashboard] and [dashboard_activities] read the same tables and call
    [ActivityService.get_recent_activities], which is not among the
    sources: it is a parameter of the handlers here. Their log records,
    which no other handler emits, are kept in a list of their own beside
    the [World]. *)

Module Dashboard.

(** An exception caught by [except Exception as e]. *)
Inductive PyExc : Type :=
| ValueError (literal : string)       (* [int(literal)] failed *)
| ServiceError (message : string).    (* raised inside the activity service *)

Inductive ViewLogRecord : Type :=
| InfoDashboardAccess (user : string)
| InfoDashboardLoaded (user : string) (playbook_count activity_count : nat)
| ErrorDashboard (user : string) (e : PyExc)
| InfoFeedRequested (user : string)
| InfoFeedReturned (user : string) (returned : nat)
| ErrorFeed (user : string) (e : PyExc).

Record Site : Type := mkSite {
  site_world : World;
  site_log : list ViewLogRecord;
}.

Definition V (A : Type) : Type := Site → A * Site.

Global Instance V_ret : MRet V := fun A x s => (x, s).
Global Instance V_bind : MBind V := fun A B f m s =>
  let '(x, s') := m s in f x s'.

(** A computation on the world, run inside a handler. *)
Definition on_world {A} (m : M A) : V A :=
  fun s => let '(x, w') := m (site_world s) in (x, mkSite w' (site_log s)).

(** [logger.info(...)], [logger.error(...)] *)
Definition log_record (r : ViewLogRecord) : V unit :=
  fun s => (tt, mkSite (site_world s) (site_log s ++ [r])).

(** [qs[:n]]: still lazy. *)
Definition qs_slice {A} (n : nat) (qs : QuerySet A) : QuerySet A :=
  mkQuerySet (qs_model qs) (fun db => take n (qs_rows qs db)).

(** [qs.count()]: one query is executed. *)
Definition count_qs {A} (qs : QuerySet A) : M nat :=
  fun w => (List.length (qs_rows qs (w_db w)),
            mkWorld (w_db w) (w_log w) (w_queries w ++ [qs_model qs])).

(** A sequence handed to a template: a query set not evaluated yet, or a
    Python list. *)
Inductive Rows (A : Type) : Type :=
| Lazy (qs : QuerySet A)
| Plain (l : list A).
Arguments Lazy {A} _.
Arguments Plain {A} _.

(** The rows the template iterates over, for the database state at
    rendering time. *)
Definition rows_on {A} (db : Database) (r : Rows A) : list A :=
  match r with
  | Lazy qs => qs_rows qs db
  | Plain l => l
  end.

(** The context handed to [dashboard.html]. *)
Record DashboardContext : Type := mkDashboardContext {
  recent_playbooks : Rows Playbook;
  recent_activities : list Activity;
  activity_count : nat;
  playbook_count : nat;
  error_message : option string;
}.

Inductive Response : Type :=
| RedirectToLogin
| RenderDashboard (context : DashboardContext)
| RenderActivityFeed (recent_activities : list Activity).

(** The [@login_required] decorator. *)
Definition login_required (view : User → HttpRequest → V Response)
    (request : HttpRequest) : V Response :=
  match req_user request with
  | Some user => view user request
  | None => mret RedirectToLogin
  end.

Section handlers.

(** [ActivityService.get_recent_activities(user, limit=...)]: it returns
    the recent activities or raises, and may log or query on its way. *)
Variable get_recent_activities : User → nat → V (PyExc + list Activity).

(** [int(s)] for a string: the integer, or [None] when it raises
    [ValueError]. *)
Variable py_int : string → option Z.

Definition dashboard_view (user : User) (request : HttpRequest) : V Response :=
  log_record (InfoDashboardAccess (username user));;
  let recent_playbooks :=
    qs_slice 5
      (qs_order_by by_updated_desc
         (qs_filter (fun _ p => pb_author p =? user_id user) Playbook_objects)) in
  outcome ← get_recent_activities user 10;
  match outcome with
  | inr recent_activities =>
      playbook_count ← on_world (count_qs
        (qs_filter (fun _ p => pb_author p =? user_id user) Playbook_objects));
      activity_count ← on_world (count_qs
        (qs_filter (fun db a => bool_decide (activity_author db a = Some (user_id user)))
           Activity_objects));
      log_record (InfoDashboardLoaded (username user) playbook_count activity_count);;
      mret (RenderDashboard
              (mkDashboardContext (Lazy recent_playbooks) recent_activities
                 activity_count playbook_count None))
  | inl e =>
      log_record (ErrorDashboard (username user) e);;
      mret (RenderDashboard
              (mkDashboardContext (Plain []) [] 0 0
                 (Some "Unable to load some dashboard data")))
  end.

Definition dashboard : HttpRequest → V Response :=
  login_required dashboard_view.

Definition dashboard_activities_view (user : User) (request : HttpRequest)
    : V Response :=
  log_record (InfoFeedRequested (username user));;
  let hours :=
    match req_GET request !! "hours" with
    | Some literal =>
        match py_int literal with
        | Some n => inr n
        | None => inl (ValueError literal)
        end
    | None => inr 24
    end in
  match hours with
  | inr hours =>
      outcome ← get_recent_activities user 10;
      match outcome with
      | inr recent_activities =>
          log_record (InfoFeedReturned (username user) (List.length recent_activities));;
          mret (RenderActivityFeed recent_activities)
      | inl e =>
          log_record (ErrorFeed (username user) e);;
          mret (RenderActivityFeed [])
      end
  | inl e =>
      log_record (ErrorFeed (username user) e);;
      mret (RenderActivityFeed [])
  end.

Definition dashboard_activities : HttpRequest → V Response :=
  login_required dashboard_activities_view.

End handlers.

(** The site once the handler has logged the request. *)
Definition entered (record : ViewLogRecord) (s : Site) : Site :=
  mkSite (site_world s) (site_log s ++ [record]).

(** The query set behind [recent_playbooks], before the slice. *)
Definition by_recency (user : User) : QuerySet Playbook :=
  qs_order_by by_updated_desc
    (qs_filter (fun _ p => pb_author p =? user_id user) Playbook_objects).

End Dashboard.

(** Sample parameters for the dashboard handlers: an activity service
    that returns the first activities of the user, one that raises, and an
    [int] that reads two literals. *)
Module DashboardSample.

Definition first_activities (user : User) (limit : nat)
    : Dashboard.V (Dashboard.PyExc + list Activity) :=
  fun s =>
    (inr (take limit
            (filter (fun a => activity_author (w_db (Dashboard.site_world s)) a
                              = Some (user_id user))
               (db_activities (w_db (Dashboard.site_world s))))), s).

Definition unavailable (user : User) (limit : nat)
    : Dashboard.V (Dashboard.PyExc + list Activity) :=
  fun s => (inl (Dashboard.ServiceError "unavailable"), s).

Definition int_of_sample (literal : string) : option Z :=
  if String.eqb literal "24" then Some 24
  else if String.eqb literal "48" then Some 48
  else None.

Definition site : Dashboard.Site := Dashboard.mkSite Sample.eight [].

End DashboardSample.

(** ** The scope of a user *)

(** The rows a user owns, directly or through the parent rows. *)
Definition own_playbooks (db : Database) (user : User) : list Playbook :=
  filter (fun p => pb_author p = user_id user) (db_playbooks db).

Definition own_workflows (db : Database) (user : User) : list Workflow :=
  filter (fun x => workflow_author db x = Some (user_id user)) (db_workflows db).

Definition own_activities (db : Database) (user : User) : list Activity :=
  filter (fun a => activity_author db a = Some (user_id user)) (db_activities db).

(** [Playbook.objects.create(...)]: the new row comes last in the table. *)
Definition with_playbook (p : Playbook) (db : Database) : Database :=
  mkDatabase (db_playbooks db ++ [p]) (db_workflows db) (db_activities db).

(** The request with one more query parameter, and with one less. *)
Definition with_param (key value : string) (request : HttpRequest) : HttpRequest :=
  mkRequest (req_user request) (<[key := value]> (req_GET request)).

Definition without_param (key : string) (request : HttpRequest) : HttpRequest :=
  mkRequest (req_user request) (delete key (req_GET request)).

(** A query parameter as the handlers read it: the empty string when the
    key is missing. *)
Definition param (request : HttpRequest) (key : string) : string :=
  default "" (req_GET request !! key).

(** The filters dict [global_search] builds from the request. *)
Definition request_filters (request : HttpRequest) : Filters :=
  set_if_nonempty "source" (param request "source")
    (set_if_nonempty "status" (param request "status")
       (set_if_nonempty "type" (param request "type") ∅)).

(** The keys [search] reads in the filters dict. *)
Definition known_filter_keys : list string := ["type"; "status"; "source"].

(** * Properties *)

(** ** Strings: what [strip] and [icontains] compute *)

Section string_facts.
Import PyStr.

Lemma all_space_lstrip s : all_space (lstrip s) = all_space s.
Proof.
  induction s as [|a s IH]; simpl; [done|].
  destruct (is_space a) eqn:Ha; simpl; [done|]. by rewrite Ha.
Qed.

Lemma rstrip_empty s : rstrip s = "" ↔ all_space s = true.
Proof.
  induction s as [|a s IH]; simpl; [done|].
  destruct (rstrip s) as [|b r] eqn:Hr.
  - assert (all_space s = true) as -> by by apply IH.
    rewrite andb_true_r. destruct (is_space a); split; congruence.
  - split; [done|]. intros [_ Hs]%andb_true_iff.
    apply IH in Hs. done.
Qed.

(** The trimmed query is empty exactly for the strings made of
    whitespace only, the empty string among them. *)
Lemma strip_empty s : strip s = "" ↔ all_space s = true.
Proof. unfold strip. by rewrite rstrip_empty, all_space_lstrip. Qed.

Lemma prefix_spec n h : String.prefix n h = true ↔ ∃ post, h = n +:+ post.
Proof.
  revert h. induction n as [|a n IH]; intros h.
  - split; [intros _; by exists h|by destruct h].
  - destruct h as [|b h]; simpl; [split; [done|by intros [? ?]]|].
    destruct (ascii_dec a b) as [->|Hab].
    + rewrite IH. split; intros [post Hp]; exists post.
      * by rewrite Hp.
      * by injection Hp.
    + split; [done|]. intros [post Hp]. injection Hp as ? ?. done.
Qed.

(** [contains] is the substring test. *)
Lemma contains_spec n h :
  contains n h = true ↔ ∃ pre post, h = pre +:+ n +:+ post.
Proof.
  induction h as [|b h IH].
  - cbn [contains]. rewrite prefix_spec. split.
    + intros [post Hp]. by exists "", post.
    + intros [[|c pre] [post Hp]]; [by exists post|done].
  - cbn [contains]. rewrite orb_true_iff, IH, prefix_spec. split.
    + intros [[post Hp]|(pre & post & Hp)].
      * by exists "", post.
      * exists (String b pre), post. simpl. by rewrite Hp.
    + intros [[|c pre] [post Hp]].
      * left. by exists post.
      * right. exists pre, post. by injection Hp.
Qed.

Lemma lstrip_head s :
  lstrip s = "" ∨ ∃ a t, lstrip s = String a t ∧ is_space a = false.
Proof.
  induction s as [|a s IH]; simpl; [by left|].
  destruct (is_space a) eqn:Ha; [done|]. right. by exists a, s.
Qed.

Lemma rstrip_head a s :
  is_space a = false → ∃ t, rstrip (String a s) = String a t.
Proof.
  intros Ha. simpl. destruct (rstrip s) as [|b r]; rewrite ?Ha; eauto.
Qed.

Lemma rstrip_rstrip s : rstrip (rstrip s) = rstrip s.
Proof.
  induction s as [|a s IH]; [done|]. cbn [rstrip].
  destruct (rstrip s) as [|b r] eqn:Hr.
  - destruct (is_space a) eqn:Ha; [done|]. simpl. by rewrite Ha.
  - change (rstrip (String a (String b r))) with
      (match rstrip (String b r) with
       | EmptyString => if is_space a then EmptyString else String a EmptyString
       | r' => String a r'
       end).
    by rewrite IH.
Qed.

(** Trimming a trimmed string changes nothing. *)
Lemma strip_strip s : strip (strip s) = strip s.
Proof.
  unfold strip. destruct (lstrip_head s) as [->|(a & t & -> & Ha)]; [done|].
  destruct (rstrip_head a t Ha) as [t' Ht]. rewrite Ht at 1.
  cbn [lstrip]. rewrite Ha, <- Ht. apply rstrip_rstrip.
Qed.

End string_facts.

(** ** The orderings are total preorders *)

Global Instance by_updated_desc_total : Total by_updated_desc.
Proof. intros p1 p2. unfold by_updated_desc. lia. Qed.
Global Instance by_updated_desc_trans : Transitive by_updated_desc.
Proof. intros p1 p2 p3. unfold by_updated_desc. lia. Qed.

Global Instance by_playbook_order_total : Total by_playbook_order.
Proof. intros w1 w2. unfold by_playbook_order. lia. Qed.
Global Instance by_playbook_order_trans : Transitive by_playbook_order.
Proof. intros w1 w2 w3. unfold by_playbook_order. lia. Qed.

Global Instance by_workflow_order_total : Total by_workflow_order.
Proof. intros a1 a2. unfold by_workflow_order. lia. Qed.
Global Instance by_workflow_order_trans : Transitive by_workflow_order.
Proof. intros a1 a2 a3. unfold by_workflow_order. lia. Qed.

(** ** Sorting *)

Section stable_sort_facts.
Context {A} (R : relation A) `{!RelDecision R}.

Lemma insert_by_Permutation x l : insert_by R x l ≡ₚ x :: l.
Proof.
  induction l as [|y l IH]; simpl; [done|].
  case_decide; [done|]. rewrite IH. apply Permutation_swap.
Qed.

Lemma stable_sort_Permutation l : stable_sort R l ≡ₚ l.
Proof.
  induction l as [|x l IH]; simpl; [done|].
  fold (stable_sort R l). by rewrite insert_by_Permutation, IH.
Qed.

Lemma StronglySorted_insert_by `{!Total R, !Transitive R} x l :
  StronglySorted R l → StronglySorted R (insert_by R x l).
Proof.
  induction 1 as [|y l Hl IH Hy]; simpl; [repeat constructor|].
  case_decide as Hxy.
  - constructor; [by constructor|]. constructor; [done|].
    eapply Forall_impl; [exact Hy|]. intros z Hz. by transitivity y.
  - constructor; [done|]. rewrite insert_by_Permutation. constructor; [|done].
    by destruct (total R x y).
Qed.

Lemma StronglySorted_stable_sort `{!Total R, !Transitive R} l :
  StronglySorted R (stable_sort R l).
Proof.
  induction l as [|x l IH]; simpl; [constructor|].
  by apply StronglySorted_insert_by.
Qed.

(** Rows with equal keys keep their order: sorting a sorted list changes
    nothing. *)
Lemma stable_sort_sorted `{!Transitive R} l :
  StronglySorted R l → stable_sort R l = l.
Proof.
  induction 1 as [|x l Hl IH Hx]; simpl; [done|].
  fold (stable_sort R l). rewrite IH. destruct Hx as [|y l Hxy _]; simpl; [done|].
  by rewrite decide_True.
Qed.

End stable_sort_facts.

(** ** The three lookups *)

Lemma filter_all {A} (P : A → Prop) `{!∀ x, Decision (P x)} (l : list A) :
  (∀ x, P x) → filter P l = l.
Proof.
  intros HP. induction l as [|x l IH]; [done|].
  rewrite filter_cons_True by done. by rewrite IH.
Qed.

Section lookups.
Context (query : string) (user : User) (filters : Filters) (db : Database).

Lemma exact_spec field v : truthy v → exact field v ↔ v = PyString field.
Proof.
  destruct v as [|s]; simpl; [done|]. intros _.
  rewrite Is_true_true, String.eqb_eq. split; [by intros ->|by intros [= ->]].
Qed.

Lemma restricts_filter_eq key (get : Playbook → string) (rows : list Playbook) :
  match filters !! key with
  | Some v => if truthy v then filter (fun p => Is_true (exact (get p) v)) rows else rows
  | None => rows
  end = filter (fun p => restricts filters key (get p)) rows.
Proof.
  assert (∀ f, restricts filters key f ↔
    match filters !! key with
    | Some v => if truthy v then v = PyString f else True
    | None => True
    end) as Hr by done.
  revert Hr. generalize (restricts_dec filters key).
  generalize (restricts filters key). intros R Rdec Hr.
  destruct (filters !! key) as [v|]; [destruct (truthy v) eqn:Hv|].
  - apply list_filter_iff. intros p. rewrite Hr. apply exact_spec. by rewrite Hv.
  - symmetry. apply filter_all. intros p. by apply Hr.
  - symmetry. apply filter_all. intros p. by apply Hr.
Qed.

Lemma _search_playbooks_model : qs_model (_search_playbooks query user filters) = MPlaybook.
Proof.
  unfold _search_playbooks.
  destruct (filters !! "status") as [v|]; [destruct (truthy v)|];
    (destruct (filters !! "source") as [v'|]; [destruct (truthy v')|]); done.
Qed.

(** The playbook lookup returns the rows of the table that match, each
    as often as the table holds it. *)
Lemma _search_playbooks_rows :
  qs_rows (_search_playbooks query user filters) db
  ≡ₚ filter (playbook_matches query user filters) (db_playbooks db).
Proof.
  transitivity
    (filter (fun p => Is_true (PyStr.icontains (pb_name p) query
                               || PyStr.icontains (pb_description p) query))
       (filter (fun p => restricts filters "source" (pb_source p))
          (filter (fun p => restricts filters "status" (pb_status p))
             (filter (fun p => Is_true (pb_author p =? user_id user))
                (db_playbooks db))))).
  - rewrite <- !restricts_filter_eq. unfold _search_playbooks.
    destruct (filters !! "status") as [v|]; [destruct (truthy v)|];
      (destruct (filters !! "source") as [v'|]; [destruct (truthy v')|]);
      simpl; apply stable_sort_Permutation.
  - rewrite !list_filter_filter.
    rewrite (list_filter_iff _ (playbook_matches query user filters)); [done|].
    intros p. unfold playbook_matches.
    assert (Is_true (pb_author p =? user_id user) ↔ pb_author p = user_id user)
      as -> by (rewrite Is_true_true; apply Z.eqb_eq).
    rewrite orb_True. tauto.
Qed.

Lemma _search_playbooks_sorted :
  StronglySorted by_updated_desc (qs_rows (_search_playbooks query user filters) db).
Proof. unfold _search_playbooks. simpl. apply StronglySorted_stable_sort; apply _. Qed.

Lemma _search_workflows_rows :
  qs_rows (_search_workflows query user filters) db
  ≡ₚ filter (workflow_matches db query user) (db_workflows db).
Proof.
  unfold _search_workflows. simpl. rewrite stable_sort_Permutation.
  rewrite list_filter_filter.
  rewrite (list_filter_iff _ (workflow_matches db query user)); [done|].
  intros w. unfold workflow_matches.
  rewrite orb_True, bool_decide_spec. tauto.
Qed.

Lemma _search_workflows_sorted :
  StronglySorted by_playbook_order (qs_rows (_search_workflows query user filters) db).
Proof. unfold _search_workflows. simpl. apply StronglySorted_stable_sort; apply _. Qed.

Lemma _search_activities_rows :
  qs_rows (_search_activities query user filters) db
  ≡ₚ filter (activity_matches db query user) (db_activities db).
Proof.
  unfold _search_activities. simpl. rewrite stable_sort_Permutation.
  rewrite list_filter_filter.
  rewrite (list_filter_iff _ (activity_matches db query user)); [done|].
  intros a. unfold activity_matches.
  rewrite orb_True, bool_decide_spec. tauto.
Qed.

Lemma _search_activities_sorted :
  StronglySorted by_workflow_order (qs_rows (_search_activities query user filters) db).
Proof. unfold _search_activities. simpl. apply StronglySorted_stable_sort; apply _. Qed.

End lookups.

(** ** The text test on text without NUL *)

Lemma c_string_nul_free s : nul_free s → PyStr.c_string s = s.
Proof.
  unfold nul_free. induction s as [|a s IH]; simpl; [done|].
  intros [Ha Hs]%orb_false_iff. rewrite Ha. by rewrite IH.
Qed.

(** On a query and a field without NUL the lookup is the case-insensitive
    substring test. *)
Lemma icontains_nul_free field query :
  nul_free query → nul_free field →
  PyStr.icontains field query = contains_ignoring_case field query.
Proof.
  intros Hq Hf. unfold PyStr.icontains, contains_ignoring_case.
  rewrite Hq. by rewrite c_string_nul_free.
Qed.

Lemma filter_iff_in {A} (P Q : A → Prop)
    `{!∀ x, Decision (P x), !∀ x, Decision (Q x)} (l : list A) :
  (∀ x, x ∈ l → P x ↔ Q x) → filter P l = filter Q l.
Proof.
  intros HPQ. induction l as [|x l IH]; [done|].
  rewrite !filter_cons, IH by (intros y Hy; apply HPQ; by right).
  apply decide_ext, HPQ. by left.
Qed.

Section fits.
Context (query : string) (user : User) (filters : Filters) (db : Database).
Hypothesis Hquery : nul_free query.
Hypothesis Hdb : text_nul_free db.

Lemma playbook_fits_rows :
  filter (playbook_matches query user filters) (db_playbooks db)
  = filter (playbook_fits query user filters) (db_playbooks db).
Proof.
  destruct Hdb as (Hplaybooks & _). rewrite Forall_forall in Hplaybooks.
  apply filter_iff_in. intros p [Hname Hdescription]%Hplaybooks.
  unfold playbook_matches, playbook_fits. by rewrite !icontains_nul_free.
Qed.

Lemma workflow_fits_rows :
  filter (workflow_matches db query user) (db_workflows db)
  = filter (workflow_fits db query user) (db_workflows db).
Proof.
  destruct Hdb as (_ & Hworkflows & _). rewrite Forall_forall in Hworkflows.
  apply filter_iff_in. intros x [Hname Hdescription]%Hworkflows.
  unfold workflow_matches, workflow_fits. by rewrite !icontains_nul_free.
Qed.

Lemma activity_fits_rows :
  filter (activity_matches db query user) (db_activities db)
  = filter (activity_fits db query user) (db_activities db).
Proof.
  destruct Hdb as (_ & _ & Hactivities). rewrite Forall_forall in Hactivities.
  apply filter_iff_in. intros a [Hname Hguidance]%Hactivities.
  unfold activity_matches, activity_fits. by rewrite !icontains_nul_free.
Qed.

End fits.

(** ** Running [search] *)

Lemma py_eq_str_spec v s : py_eq_str v s = true ↔ v = Some (PyString s).
Proof.
  destruct v as [[|s']|]; simpl; [done| |done].
  rewrite String.eqb_eq. split; [by intros ->|by intros [= ->]].
Qed.

Section running.
Context (query : option string) (user : User) (filters : option Filters) (w : World).

Local Abbreviation fs := (default ∅ filters).
Local Abbreviation nq := (normalized query).

Lemma search_empty :
  nq = "" →
  search query user filters w =
    (mkResults [] [] [],
     mkWorld (w_db w) (w_log w ++ [LogSearchEmptyQuery (username user)]) (w_queries w)).
Proof.
  unfold normalized, search. intros ->. done.
Qed.

Lemma search_nonempty :
  nq ≠ "" →
  search query user filters w =
    (kept (fs !! "type") (looked_up nq user fs (w_db w)),
     mkWorld (w_db w)
       (w_log w ++ [LogSearchStarted (username user) nq fs;
                    let r := kept (fs !! "type") (looked_up nq user fs (w_db w)) in
                    LogSearchFinished (username user) nq
                      (List.length (playbooks r)) (List.length (workflows r))
                      (List.length (activities r))])
       (w_queries w ++ [MPlaybook; MWorkflow; MActivity])).
Proof.
  unfold normalized, search. intros Hq.
  apply String.eqb_neq in Hq. rewrite Hq.
  unfold mbind, M_bind, mret, M_ret, log_info, list_qs, kept, looked_up.
  cbn [w_db w_log w_queries playbooks workflows activities].
  rewrite _search_playbooks_model.
  repeat (destruct (py_eq_str _ _));
    cbn [w_db w_log w_queries playbooks workflows activities];
    by rewrite <- !app_assoc.
Qed.

(** Whatever the query, the lists returned are the lookups' lists or
    empty lists. *)
Lemma search_lists :
  let r := (search query user filters w).1 in
  let l := looked_up nq user fs (w_db w) in
  (playbooks r = playbooks l ∨ playbooks r = [])
  ∧ (workflows r = workflows l ∨ workflows r = [])
  ∧ (activities r = activities l ∨ activities r = []).
Proof.
  destruct (decide (nq = "")) as [Hq|Hq].
  - rewrite search_empty by done. simpl. auto.
  - rewrite search_nonempty by done. unfold kept. simpl.
    repeat (destruct (py_eq_str _ _)); simpl; auto.
Qed.

Lemma search_db_unchanged : w_db (search query user filters w).2 = w_db w.
Proof.
  destruct (decide (nq = "")).
  - by rewrite search_empty.
  - by rewrite search_nonempty.
Qed.

End running.

(** The result is a function of the arguments and of the database state
    alone. *)
Lemma search_result_of_db query user filters (w w' : World) :
  w_db w = w_db w' →
  (search query user filters w).1 = (search query user filters w').1.
Proof.
  intros Hdb. destruct (decide (normalized query = "")).
  - by rewrite !search_empty.
  - rewrite !search_nonempty by done. cbn [fst]. by rewrite Hdb.
Qed.

(** ** The scenarios of the test suite *)

Example search_component :
  (search (Some "Component") Sample.maria None Sample.world).1
  = mkResults [Sample.component_playbook] [Sample.component_workflow]
      [Sample.create_component].
Proof. reflexivity. Qed.

Example search_no_match :
  (search (Some "NonExistingQuery") Sample.maria None Sample.world).1
  = mkResults [] [] [].
Proof. reflexivity. Qed.

Example search_other_user :
  (search (Some "Component") Sample.sam None Sample.world).1 = mkResults [] [] [].
Proof. reflexivity. Qed.

Example search_status_active_excludes_draft :
  (search (Some "Component") Sample.maria
     (Some {["status" := PyString "active"]}) Sample.world).1
  = mkResults [] [Sample.component_workflow] [Sample.create_component].
Proof. reflexivity. Qed.

Example suggestions_anonymous :
  (global_search_suggestions (mkRequest None {["q" := "Component"]}) Sample.world).1
  = RedirectToLogin.
Proof. reflexivity. Qed.

(** ** Ownership scope *)

(** C1. Every entity in the three sequences [search] returns is owned by
    the acting user: a returned playbook is a row whose author is the
    acting user, a returned workflow is a row whose playbook has the acting
    user as author, and a returned activity is a row whose workflow's
    playbook has the acting user as author. An entity has one owner, so
    no entity of another user is returned. It holds for every query, the
    non-empty ones among them. *)
Theorem search_returns_only_own_entities
    (query : option string) (user : User) (filters : option Filters) (w : World) :
  let db := w_db w in
  let r := (search query user filters w).1 in
  (∀ p, p ∈ playbooks r → p ∈ db_playbooks db ∧ pb_author p = user_id user)
  ∧ (∀ x, x ∈ workflows r →
       x ∈ db_workflows db
       ∧ ∃ p, playbook_by_id db (wf_playbook x) = Some p
              ∧ pb_author p = user_id user)
  ∧ (∀ a, a ∈ activities r →
       a ∈ db_activities db
       ∧ ∃ x p, workflow_by_id db (act_workflow a) = Some x
                ∧ playbook_by_id db (wf_playbook x) = Some p
                ∧ pb_author p = user_id user).
Proof.
  intros db r.
  destruct (search_lists query user filters w) as (Hp & Hw & Ha).
  fold r db in Hp, Hw, Ha. split_and!.
  - intros p Hin. destruct Hp as [Hp|Hp]; rewrite Hp in Hin;
      [|by apply elem_of_nil in Hin].
    cbn [looked_up playbooks workflows activities] in Hin.
    rewrite _search_playbooks_rows, list_elem_of_filter in Hin.
    destruct Hin as [(Hauth & _) Hin]. done.
  - intros x Hin. destruct Hw as [Hw|Hw]; rewrite Hw in Hin;
      [|by apply elem_of_nil in Hin].
    cbn [looked_up playbooks workflows activities] in Hin.
    rewrite _search_workflows_rows, list_elem_of_filter in Hin.
    destruct Hin as [(Hauth & _) Hin]. split; [done|].
    unfold workflow_author in Hauth. apply fmap_Some in Hauth as (p & Hp' & Hu).
    exists p. by rewrite Hu.
  - intros a Hin. destruct Ha as [Ha|Ha]; rewrite Ha in Hin;
      [|by apply elem_of_nil in Hin].
    cbn [looked_up playbooks workflows activities] in Hin.
    rewrite _search_activities_rows, list_elem_of_filter in Hin.
    destruct Hin as [(Hauth & _) Hin]. split; [done|].
    unfold activity_author in Hauth. apply bind_Some in Hauth as (x & Hx & Hauth).
    unfold workflow_author in Hauth. apply fmap_Some in Hauth as (p & Hp' & Hu).
    exists x, p. by rewrite Hu.
Qed.

(** ** The empty query *)

(** C2. For every user and every filters value, a query that is empty
    after trimming whitespace makes [search] return three empty lists, and
    no query is sent to the database. By [strip_empty] these are the
    queries made of whitespace only, the empty string among them. *)
Theorem search_blank_query
    (q : string) (user : User) (filters : option Filters) (w : World) :
  PyStr.strip q = "" →
  (search (Some q) user filters w).1 = mkResults [] [] []
  ∧ w_queries (search (Some q) user filters w).2 = w_queries w.
Proof.
  intros Hq. by rewrite (search_empty (Some q)).
Qed.

Lemma search_blank_query_witness :
  PyStr.strip "   " = ""
  ∧ (search (Some "   ") Sample.maria None Sample.world).1 = mkResults [] [] []
  ∧ w_queries (search (Some "   ") Sample.maria None Sample.world).2
    = w_queries Sample.world.
Proof.
  split; [reflexivity|].
  apply (search_blank_query "   " Sample.maria None Sample.world). reflexivity.
Defined.

(** C9. A query of [None] behaves exactly like the empty query: the same
    result and the same effects, which are three empty lists and no query
    sent to the database. *)
Theorem search_none_query (user : User) (filters : option Filters) (w : World) :
  search None user filters w = search (Some "") user filters w
  ∧ (search None user filters w).1 = mkResults [] [] []
  ∧ w_queries (search None user filters w).2 = w_queries w.
Proof.
  split; [done|]. by rewrite (search_empty None).
Qed.

(** ** The type filter *)

(** C3. For every non-empty query, [search] evaluates the three lookups,
    in the order playbooks, workflows, activities, whatever the filters
    say, and the type filter then only empties lists: with
    [type == "playbooks"] the playbooks list is the one looked up and the
    two others are empty, symmetrically for ["workflows"] and
    ["activities"], and without a type filter the three lists are the ones
    looked up. *)
Theorem search_type_filter_is_post_filter
    (query : option string) (user : User) (filters : option Filters) (w : World) :
  let fs := default ∅ filters in
  let l := looked_up (normalized query) user fs (w_db w) in
  let r := (search query user filters w).1 in
  normalized query ≠ "" →
  w_queries (search query user filters w).2
    = (w_queries w ++ [MPlaybook; MWorkflow; MActivity])%list
  ∧ (fs !! "type" = Some (PyString "playbooks") →
       r = mkResults (playbooks l) [] [])
  ∧ (fs !! "type" = Some (PyString "workflows") →
       r = mkResults [] (workflows l) [])
  ∧ (fs !! "type" = Some (PyString "activities") →
       r = mkResults [] [] (activities l))
  ∧ (fs !! "type" = None →
       r = mkResults (playbooks l) (workflows l) (activities l)).
Proof.
  intros fs l r Hq. subst r. rewrite search_nonempty by done. fold fs l.
  split; [done|]. cbn [fst]. split_and!; intros ->; by destruct l.
Qed.

Lemma search_type_filter_is_post_filter_witness :
  let filters := Some ({["type" := PyString "playbooks"]} : Filters) in
  normalized (Some "Component") ≠ ""
  ∧ w_queries (search (Some "Component") Sample.maria filters Sample.world).2
    = [MPlaybook; MWorkflow; MActivity]
  ∧ (search (Some "Component") Sample.maria filters Sample.world).1
    = mkResults [Sample.component_playbook] [] [].
Proof.
  intros filters.
  assert (normalized (Some "Component") ≠ "") as Hq by (vm_compute; discriminate).
  split; [exact Hq|].
  destruct (search_type_filter_is_post_filter
              (Some "Component") Sample.maria filters Sample.world Hq)
    as (Hqueries & Hplaybooks & _).
  split; [exact Hqueries|]. rewrite Hplaybooks by reflexivity. reflexivity.
Defined.

(** ** Effects *)

(** C8. [search] is read-only: for every query, user and filters value,
    the database state after the call is the state before it, with every
    row and field of the three tables. *)
Theorem search_read_only
    (query : option string) (user : User) (filters : option Filters) (w : World) :
  w_db (search query user filters w).2 = w_db w.
Proof. apply search_db_unchanged. Qed.

(** ** The playbooks sequence *)


Lemma text_nul_free_sample : text_nul_free Sample.db.
Proof. repeat split; repeat constructor. Qed.



(** ** The workflows and activities sequences *)

(** C5, as the code has it. For every query that is not empty once
    trimmed: the workflows sequence is ordered by parent playbook, then by
    [order] ascending, and the activities sequence by parent workflow, then
    by [order] ascending; a sequence the type filter excludes is empty;
    otherwise, when neither the trimmed query nor the stored text holds a
    NUL character, the workflows sequence holds exactly the workflows of
    the acting user's playbooks whose name or description contains the
    trimmed query case-insensitively, and the activities sequence exactly
    the activities of the workflows of the acting user's playbooks whose
    name or guidance contains the trimmed query case-insensitively. *)
Theorem search_workflows_activities_exact
    (query : option string) (user : User) (filters : option Filters) (w : World) :
  let fs := default ∅ filters in
  let db := w_db w in
  let r := (search query user filters w).1 in
  normalized query ≠ "" →
  (StronglySorted by_playbook_order (workflows r)
   ∧ (fs !! "type" ≠ Some (PyString "playbooks") →
      fs !! "type" ≠ Some (PyString "activities") →
      nul_free (normalized query) →
      text_nul_free db →
      workflows r
      ≡ₚ filter (workflow_fits db (normalized query) user) (db_workflows db))
   ∧ (fs !! "type" = Some (PyString "playbooks")
      ∨ fs !! "type" = Some (PyString "activities") →
      workflows r = []))
  ∧ (StronglySorted by_workflow_order (activities r)
     ∧ (fs !! "type" ≠ Some (PyString "playbooks") →
        fs !! "type" ≠ Some (PyString "workflows") →
        nul_free (normalized query) →
        text_nul_free db →
        activities r
        ≡ₚ filter (activity_fits db (normalized query) user) (db_activities db))
     ∧ (fs !! "type" = Some (PyString "playbooks")
        ∨ fs !! "type" = Some (PyString "workflows") →
        activities r = [])).
Proof.
  intros fs db r Hq. subst r. rewrite search_nonempty by done. fold fs db.
  cbn [fst]. unfold kept.
  assert (nul_free (normalized query) → text_nul_free db →
          qs_rows (_search_workflows (normalized query) user fs) db
          ≡ₚ filter (workflow_fits db (normalized query) user) (db_workflows db))
    as Hworkflows.
  { intros Hnul Hdb. rewrite <- workflow_fits_rows by done.
    apply _search_workflows_rows. }
  assert (nul_free (normalized query) → text_nul_free db →
          qs_rows (_search_activities (normalized query) user fs) db
          ≡ₚ filter (activity_fits db (normalized query) user) (db_activities db))
    as Hactivities.
  { intros Hnul Hdb. rewrite <- activity_fits_rows by done.
    apply _search_activities_rows. }
  destruct (py_eq_str (fs !! "type") "playbooks") eqn:Hp;
    [|destruct (py_eq_str (fs !! "type") "workflows") eqn:Hw;
      [|destruct (py_eq_str (fs !! "type") "activities") eqn:Ha]];
    cbn [workflows activities looked_up].
  - apply py_eq_str_spec in Hp. split; (split_and!; [constructor|done..]).
  - apply py_eq_str_spec in Hw. split; split_and!.
    + apply _search_workflows_sorted.
    + intros _ _. apply Hworkflows.
    + rewrite Hw. by intros [[=]|[=]].
    + constructor.
    + done.
    + done.
  - apply py_eq_str_spec in Ha. split; split_and!.
    + constructor.
    + done.
    + done.
    + apply _search_activities_sorted.
    + intros _ _. apply Hactivities.
    + rewrite Ha. by intros [[=]|[=]].
  - split; split_and!.
    + apply _search_workflows_sorted.
    + intros _ _. apply Hworkflows.
    + intros [Ht|Ht]; apply py_eq_str_spec in Ht; congruence.
    + apply _search_activities_sorted.
    + intros _ _. apply Hactivities.
    + intros [Ht|Ht]; apply py_eq_str_spec in Ht; congruence.
Qed.

Lemma search_workflows_activities_exact_witness :
  normalized (Some "component") ≠ ""
  ∧ nul_free (normalized (Some "component"))
  ∧ text_nul_free (w_db Sample.world)
  ∧ workflows (search (Some "component") Sample.maria None Sample.world).1
    ≡ₚ [Sample.component_workflow]
  ∧ activities (search (Some "component") Sample.maria None Sample.world).1
    ≡ₚ [Sample.create_component].
Proof.
  assert (normalized (Some "component") ≠ "") as Hq by (vm_compute; discriminate).
  assert (nul_free (normalized (Some "component"))) as Hnul by reflexivity.
  pose proof text_nul_free_sample as Hdb.
  split_and!; [exact Hq|exact Hnul|exact Hdb|..];
    destruct (search_workflows_activities_exact (Some "component") Sample.maria None
                Sample.world Hq) as ((_ & Hwf & _) & (_ & Hact & _)).
  - etrans; [apply Hwf; [vm_compute; intros [=]..|exact Hnul|exact Hdb]|reflexivity].
  - etrans; [apply Hact; [vm_compute; intros [=]..|exact Hnul|exact Hdb]|reflexivity].
Defined.

(** C5 as stated fails on the code in three ways. Under the type filter
    ["playbooks"] the matching workflow and the matching activity of the
    acting user are not returned; for the query ["Component  "], with
    trailing spaces, the workflow "Component Workflow" is returned although
    neither its name nor its description contains that query; and for a
    query that starts with a NUL character the workflow and the activity
    are returned although no field of theirs contains the query. *)
Lemma search_workflows_activities_exact_counterexample :
  let only_playbooks := Some ({["type" := PyString "playbooks"]} : Filters) in
  let nul_zzz := String (ascii_of_N 0) "zzz" in
  ¬ (workflows (search (Some "Component") Sample.maria only_playbooks Sample.world).1
     ≡ₚ filter (workflow_fits Sample.db "Component" Sample.maria)
          (db_workflows Sample.db))
  ∧ ¬ (activities (search (Some "Component") Sample.maria only_playbooks Sample.world).1
       ≡ₚ filter (activity_fits Sample.db "Component" Sample.maria)
            (db_activities Sample.db))
  ∧ ¬ (workflows (search (Some "Component  ") Sample.maria None Sample.world).1
       ≡ₚ filter (workflow_fits Sample.db "Component  " Sample.maria)
            (db_workflows Sample.db))
  ∧ ¬ (workflows (search (Some nul_zzz) Sample.maria None Sample.world).1
       ≡ₚ filter (workflow_fits Sample.db nul_zzz Sample.maria)
            (db_workflows Sample.db))
  ∧ ¬ (activities (search (Some nul_zzz) Sample.maria None Sample.world).1
       ≡ₚ filter (activity_fits Sample.db nul_zzz Sample.maria)
            (db_activities Sample.db)).
Proof.
  split_and!; intros H%Permutation_length; vm_compute in H; discriminate.
Qed.

(** ** Filters that restrict nothing *)

Lemma _search_playbooks_restriction query user (fs fs' : Filters) :
  restriction fs "status" = restriction fs' "status" →
  restriction fs "source" = restriction fs' "source" →
  _search_playbooks query user fs = _search_playbooks query user fs'.
Proof.
  unfold restriction, _search_playbooks. intros Hstatus Hsource.
  destruct (fs !! "status") as [v1|]; [destruct (truthy v1)|];
    (destruct (fs' !! "status") as [v1'|]; [destruct (truthy v1')|]);
    try discriminate; try (injection Hstatus as <-);
    (destruct (fs !! "source") as [v2|]; [destruct (truthy v2)|]);
    (destruct (fs' !! "source") as [v2'|]; [destruct (truthy v2')|]);
    try discriminate; try (injection Hsource as <-); done.
Qed.

(** Two filter dicts that ask the same of the playbook lookup and select
    the same known type give the same result. *)
Lemma search_result_of_restrictions query user (fs fs' : Filters) w :
  restriction fs "status" = restriction fs' "status" →
  restriction fs "source" = restriction fs' "source" →
  (∀ t, t ∈ known_types → py_eq_str (fs !! "type") t = py_eq_str (fs' !! "type") t) →
  (search query user (Some fs) w).1 = (search query user (Some fs') w).1.
Proof.
  intros Hstatus Hsource Htype. destruct (decide (normalized query = "")).
  - by rewrite !search_empty.
  - rewrite !search_nonempty by done. cbn [fst default]. unfold kept, looked_up.
    rewrite (_search_playbooks_restriction _ _ fs fs') by done.
    rewrite !(Htype _) by (unfold known_types; compute_done). done.
Qed.

Lemma py_eq_str_falsy v t : truthy v = false → t ≠ "" → py_eq_str (Some v) t = false.
Proof.
  destruct v as [|s]; simpl; [done|]. intros Hs Ht.
  apply negb_false_iff, String.eqb_eq in Hs as ->. by apply String.eqb_neq.
Qed.

Lemma restriction_insert_falsy (fs : Filters) k v key :
  truthy v = false → restriction (<[k:=v]> fs) key = restriction (delete k fs) key.
Proof.
  intros Hv. unfold restriction. destruct (decide (k = key)) as [->|Hk].
  - by rewrite lookup_insert_eq, lookup_delete_eq, Hv.
  - by rewrite lookup_insert_ne, lookup_delete_ne.
Qed.

Lemma restriction_insert_ne (fs : Filters) k v key :
  k ≠ key → restriction (<[k:=v]> fs) key = restriction (delete k fs) key.
Proof.
  intros Hk. unfold restriction. by rewrite lookup_insert_ne, lookup_delete_ne.
Qed.

Lemma known_types_nonempty t : t ∈ known_types → t ≠ "".
Proof.
  unfold known_types. rewrite !elem_of_cons, elem_of_nil.
  intros [->|[->|[->|[]]]]; done.
Qed.

(** C6, as the code has it. [search] returns a result for every filters
    argument, [None] or a dict, and in that result: an empty dict is the
    same as no dict; a value that is [None] or empty restricts nothing,
    under any key; a key other than [status], [source] and [type] is
    ignored; a type value other than the three known ones is ignored, each
    time with the result the call gives when the key is absent. A status
    or source value that is not empty is not ignored, known or not: every
    playbook returned has that very status, resp. source. *)
Theorem search_ignores_unknown_filters
    (query : option string) (user : User) (fs : Filters) (w : World) :
  let result filters := (search query user filters w).1 in
  result (Some ∅) = result None
  ∧ (∀ k v, truthy v = false →
       result (Some (<[k:=v]> fs)) = result (Some (delete k fs)))
  ∧ (∀ k v, k ∉ ["status"; "source"; "type"] →
       result (Some (<[k:=v]> fs)) = result (Some (delete k fs)))
  ∧ (∀ v, v ∉ (PyString <$> known_types) →
       result (Some (<["type":=v]> fs)) = result (Some (delete "type" fs)))
  ∧ (∀ s p, s ≠ "" →
       p ∈ playbooks (result (Some (<["status":=PyString s]> fs))) →
       pb_status p = s)
  ∧ (∀ s p, s ≠ "" →
       p ∈ playbooks (result (Some (<["source":=PyString s]> fs))) →
       pb_source p = s).
Proof.
  intros result. subst result. cbn beta. split_and!.
  - done.
  - intros k v Hv. apply search_result_of_restrictions;
      [by apply restriction_insert_falsy..|].
    intros t Ht%known_types_nonempty. destruct (decide (k = "type")) as [->|Hk].
    + by rewrite lookup_insert_eq, lookup_delete_eq, py_eq_str_falsy.
    + by rewrite lookup_insert_ne, lookup_delete_ne.
  - intros k v Hk.
    assert (k ≠ "status" ∧ k ≠ "source" ∧ k ≠ "type") as (Hk1 & Hk2 & Hk3)
      by (split_and!; intros ->; apply Hk; compute_done).
    apply search_result_of_restrictions; [by apply restriction_insert_ne..|].
    intros t _. by rewrite lookup_insert_ne, lookup_delete_ne.
  - intros v Hv. apply search_result_of_restrictions;
      [by apply restriction_insert_ne..|].
    intros t Ht. rewrite lookup_insert_eq, lookup_delete_eq.
    destruct (py_eq_str (Some v) t) eqn:Heq; [|done].
    apply py_eq_str_spec in Heq as [= ->]. destruct Hv.
    by apply list_elem_of_fmap_2.
  - intros s p Hs Hin.
    destruct (search_lists query user (Some (<["status":=PyString s]> fs)) w)
      as ([Hp|Hp] & _); rewrite Hp in Hin; [|by apply elem_of_nil in Hin].
    cbn [looked_up playbooks] in Hin.
    rewrite _search_playbooks_rows, list_elem_of_filter in Hin.
    destruct Hin as [(_ & _ & Hstatus & _) _]. unfold restricts in Hstatus.
    change (default ∅ (Some (<["status":=PyString s]> fs)))
      with (<["status":=PyString s]> fs) in Hstatus.
    rewrite lookup_insert_eq in Hstatus. simpl in Hstatus.
    apply String.eqb_neq in Hs. rewrite Hs in Hstatus. by injection Hstatus.
  - intros s p Hs Hin.
    destruct (search_lists query user (Some (<["source":=PyString s]> fs)) w)
      as ([Hp|Hp] & _); rewrite Hp in Hin; [|by apply elem_of_nil in Hin].
    cbn [looked_up playbooks] in Hin.
    rewrite _search_playbooks_rows, list_elem_of_filter in Hin.
    destruct Hin as [(_ & _ & _ & Hsource) _]. unfold restricts in Hsource.
    change (default ∅ (Some (<["source":=PyString s]> fs)))
      with (<["source":=PyString s]> fs) in Hsource.
    rewrite lookup_insert_eq in Hsource. simpl in Hsource.
    apply String.eqb_neq in Hs. rewrite Hs in Hsource. by injection Hsource.
Qed.

Lemma search_ignores_unknown_filters_witness :
  let result filters := (search (Some "Component") Sample.maria filters Sample.world).1 in
  truthy (PyString "") = false
  ∧ result (Some (<["status":=PyString ""]> ∅)) = result (Some (delete "status" ∅))
  ∧ ("page" ∉ ["status"; "source"; "type"])
  ∧ result (Some (<["page":=PyString "2"]> ∅)) = result (Some (delete "page" ∅))
  ∧ (PyString "everything" ∉ (PyString <$> known_types))
  ∧ result (Some (<["type":=PyString "everything"]> ∅)) = result (Some (delete "type" ∅)).
Proof.
  intros result.
  destruct (search_ignores_unknown_filters (Some "Component") Sample.maria ∅
              Sample.world) as (_ & Hfalsy & Hkey & Htype & _).
  assert (truthy (PyString "") = false) as H1 by reflexivity.
  assert ("page" ∉ ["status"; "source"; "type"]) as H2 by compute_done.
  assert (PyString "everything" ∉ (PyString <$> known_types)) as H3
    by compute_done.
  split_and!; [exact H1|exact (Hfalsy "status" _ H1)|exact H2
              |exact (Hkey "page" (PyString "2") H2)|exact H3|exact (Htype _ H3)].
Defined.

(** C6 as stated fails on the code: a status value outside the known set
    is not ignored. With [status = "archived"] the matching playbook of the
    acting user is not returned, while it is when the key is absent. *)
Lemma search_ignores_unknown_filters_counterexample :
  let archived := Some ({["status" := PyString "archived"]} : Filters) in
  playbooks (search (Some "Component") Sample.maria archived Sample.world).1 = []
  ∧ playbooks (search (Some "Component") Sample.maria None Sample.world).1
    = [Sample.component_playbook]
  ∧ (search (Some "Component") Sample.maria archived Sample.world).1
    ≠ (search (Some "Component") Sample.maria None Sample.world).1.
Proof.
  split_and!; [reflexivity..|]. vm_compute. discriminate.
Qed.

(** ** The suggestions handler *)

Lemma normalized_strip q : normalized (Some (PyStr.strip q)) = PyStr.strip q.
Proof. apply strip_strip. Qed.

(** C7. For an authenticated request whose query is not empty once
    trimmed, the suggestions handler calls [search] with the trimmed query,
    the caller as acting user and no filters, which is the call the
    full-results handler makes for a request without filter parameters,
    and renders the first five entries at most of each of the three
    sequences, in their order. The full-results handler renders the three
    sequences whole. The service truncates nothing: it returns the rows of
    the three lookups as they are, which are all the matching rows when
    neither the query nor the stored text holds a NUL character. *)
Theorem suggestions_truncate_to_five
    (request : HttpRequest) (user : User) (q : string) (w : World) :
  let r := (search (Some (PyStr.strip q)) user None w).1 in
  req_user request = Some user →
  req_GET request !! "q" = Some q →
  PyStr.strip q ≠ "" →
  (global_search_suggestions request w).1
  = RenderSuggestions
      (mkSuggestionsContext (PyStr.strip q)
         (take 5 (playbooks r)) (take 5 (workflows r)) (take 5 (activities r)))
  ∧ (req_GET request !! "type" = None →
     req_GET request !! "status" = None →
     req_GET request !! "source" = None →
     (global_search request w).1
     = RenderResults
         (mkResultsContext (PyStr.strip q)
            (playbooks r) (workflows r) (activities r) "" "" ""))
  ∧ r = looked_up (PyStr.strip q) user ∅ (w_db w)
  ∧ (nul_free (PyStr.strip q) →
     text_nul_free (w_db w) →
     playbooks r
     ≡ₚ filter (playbook_fits (PyStr.strip q) user ∅) (db_playbooks (w_db w))
     ∧ workflows r
       ≡ₚ filter (workflow_fits (w_db w) (PyStr.strip q) user) (db_workflows (w_db w))
     ∧ activities r
       ≡ₚ filter (activity_fits (w_db w) (PyStr.strip q) user)
            (db_activities (w_db w))).
Proof.
  intros r Huser Hq Hne.
  assert (r = looked_up (PyStr.strip q) user ∅ (w_db w)) as Hr.
  { subst r. rewrite search_nonempty by (by rewrite normalized_strip).
    rewrite normalized_strip. cbn [fst]. change (default ∅ None) with (∅ : Filters).
    unfold kept. rewrite lookup_empty. by destruct (looked_up _ _ _ _). }
  split_and!.
  - unfold global_search_suggestions, login_required. rewrite Huser.
    unfold global_search_suggestions_view. rewrite Hq.
    change (default "" (Some q)) with q.
    apply String.eqb_neq in Hne. rewrite Hne.
    unfold mbind, M_bind, mret, M_ret. cbn [log_info].
    match goal with
    | |- context [search ?a ?b ?c ?w'] =>
        assert ((search a b c w').1 = r) as Hr' by (by apply search_result_of_db);
        destruct (search a b c w') as [r' w'']
    end.
    cbn [fst log_info] in *. by rewrite Hr'.
  - intros Htype Hstatus Hsource.
    unfold global_search, login_required. rewrite Huser.
    unfold global_search_view. rewrite Hq, Htype, Hstatus, Hsource.
    change (default "" (Some q)) with q. change (default "" None) with "".
    unfold set_if_nonempty. cbn [String.eqb].
    unfold mbind, M_bind, mret, M_ret. cbn [log_info].
    match goal with
    | |- context [search ?a ?b ?c ?w'] =>
        assert ((search a b c w').1 = r) as Hr'
          by (by apply (search_result_of_db a b None));
        destruct (search a b c w') as [r' w'']
    end.
    cbn [fst log_info] in *. by rewrite Hr'.
  - exact Hr.
  - intros Hnul Hdb. rewrite Hr. cbn [looked_up playbooks workflows activities].
    rewrite <- playbook_fits_rows, <- workflow_fits_rows, <- activity_fits_rows by done.
    split_and!; [apply _search_playbooks_rows|apply _search_workflows_rows
                |apply _search_activities_rows].
Qed.

Lemma suggestions_truncate_to_five_witness :
  let request := mkRequest (Some Sample.maria) {["q" := " guide"]} in
  let r := (search (Some (PyStr.strip " guide")) Sample.maria None Sample.eight).1 in
  req_user request = Some Sample.maria
  ∧ req_GET request !! "q" = Some " guide"
  ∧ PyStr.strip " guide" ≠ ""
  ∧ List.length (playbooks r) = 8%nat
  ∧ (global_search_suggestions request Sample.eight).1
    = RenderSuggestions
        (mkSuggestionsContext "guide"
           (Sample.numbered_playbook <$> [8; 7; 6; 5; 4]) [] []).
Proof.
  intros request r.
  assert (req_user request = Some Sample.maria) as Huser by reflexivity.
  assert (req_GET request !! "q" = Some " guide") as Hq by reflexivity.
  assert (PyStr.strip " guide" ≠ "") as Hne by (vm_compute; discriminate).
  split_and!; [exact Huser|exact Hq|exact Hne|reflexivity|].
  destruct (suggestions_truncate_to_five request Sample.maria " guide" Sample.eight
              Huser Hq Hne) as (Hsuggest & _).
  rewrite Hsuggest. reflexivity.
Defined.

(** * Further properties of the service *)

(** ** The query, up to case and surrounding whitespace *)

Lemma lower_empty s : PyStr.lower s = "" ↔ s = "".
Proof. destruct s; simpl; split; congruence. Qed.

Lemma lower_app s t : PyStr.lower (s +:+ t) = PyStr.lower s +:+ PyStr.lower t.
Proof. induction s as [|a s IH]; simpl; [done|]. by rewrite IH. Qed.

Lemma string_app_assoc (s t r : string) : (s +:+ t) +:+ r = s +:+ t +:+ r.
Proof.
  induction s as [|a s IH]; [done|].
  change (String a ((s +:+ t) +:+ r) = String a (s +:+ t +:+ r)). by rewrite IH.
Qed.

Lemma contains_trans a b c :
  PyStr.contains a b = true → PyStr.contains b c = true → PyStr.contains a c = true.
Proof.
  rewrite !contains_spec. intros (pre & post & ->) (pre' & post' & ->).
  exists (pre' +:+ pre), (post +:+ post'). by rewrite !string_app_assoc.
Qed.

Lemma is_nul_lower a : PyStr.is_nul (PyStr.lower_ascii a) = PyStr.is_nul a.
Proof. by destruct a as [[] [] [] [] [] [] [] []]. Qed.

Lemma has_nul_lower s : PyStr.has_nul (PyStr.lower s) = PyStr.has_nul s.
Proof. induction s as [|a s IH]; simpl; [done|]. by rewrite is_nul_lower, IH. Qed.

Lemma c_string_lower s : PyStr.c_string (PyStr.lower s) = PyStr.lower (PyStr.c_string s).
Proof.
  induction s as [|a s IH]; simpl; [done|]. rewrite is_nul_lower.
  destruct (PyStr.is_nul a); simpl; [done|]. by rewrite IH.
Qed.

(** The three lookups read the query through its case-folded form only. *)
Lemma looked_up_lower q q' user fs db :
  PyStr.lower q = PyStr.lower q' →
  looked_up q user fs db = looked_up q' user fs db.
Proof.
  intros Hq.
  assert (PyStr.has_nul q = PyStr.has_nul q') as Hnul
    by (by rewrite <- (has_nul_lower q), Hq, has_nul_lower).
  assert (PyStr.lower (PyStr.c_string q) = PyStr.lower (PyStr.c_string q')) as Hcut
    by (by rewrite <- !c_string_lower, Hq).
  unfold looked_up, _search_playbooks, _search_workflows,
    _search_activities, PyStr.icontains. by rewrite Hq, Hnul, Hcut.
Qed.

(** X1. Two queries that differ only in letter case and in leading or
    trailing whitespace give the same three sequences. *)
Theorem search_query_up_to_case_and_space
    (q q' : option string) (user : User) (filters : option Filters) (w : World) :
  PyStr.lower (normalized q) = PyStr.lower (normalized q') →
  (search q user filters w).1 = (search q' user filters w).1.
Proof.
  intros Hq. destruct (decide (normalized q = "")) as [Hempty|Hne].
  - assert (normalized q' = "") as Hempty'
      by (apply lower_empty; rewrite <- Hq; by apply lower_empty).
    by rewrite !search_empty.
  - assert (normalized q' ≠ "") as Hne'.
    { intros Hempty'. apply Hne, lower_empty. rewrite Hq. by apply lower_empty. }
    rewrite !search_nonempty by done. cbn [fst].
    by rewrite (looked_up_lower _ _ _ _ _ Hq).
Qed.

Lemma search_query_up_to_case_and_space_witness :
  PyStr.lower (normalized (Some "  COMPONENT ")) = PyStr.lower (normalized (Some "component"))
  ∧ (search (Some "  COMPONENT ") Sample.maria None Sample.world).1
    = (search (Some "component") Sample.maria None Sample.world).1.
Proof.
  assert (PyStr.lower (normalized (Some "  COMPONENT "))
          = PyStr.lower (normalized (Some "component"))) as Hq by reflexivity.
  split; [exact Hq|].
  exact (search_query_up_to_case_and_space _ _ Sample.maria None Sample.world Hq).
Defined.

(** ** Refining a query *)

Lemma icontains_refine field q q' :
  nul_free q → nul_free q' →
  contains_ignoring_case q' q = true →
  Is_true (PyStr.icontains field q') → Is_true (PyStr.icontains field q).
Proof.
  unfold PyStr.icontains, contains_ignoring_case. intros -> ->.
  rewrite !Is_true_true. intros Hq Hf.
  by apply (contains_trans _ (PyStr.lower q')).
Qed.

(** X2. A query that contains another one, case aside, returns nothing
    the other does not return: with the same user and filters, every
    playbook, workflow and activity found for the longer query is found
    for the shorter one, provided the shorter one is not empty once
    trimmed (an empty query finds nothing) and neither holds a NUL
    character (a NUL ends the pattern the database reads). *)
Theorem search_refined_query_narrows
    (q q' : option string) (user : User) (filters : option Filters) (w : World) :
  let r := (search q user filters w).1 in
  let r' := (search q' user filters w).1 in
  normalized q ≠ "" →
  nul_free (normalized q) →
  nul_free (normalized q') →
  contains_ignoring_case (normalized q') (normalized q) = true →
  (∀ p, p ∈ playbooks r' → p ∈ playbooks r)
  ∧ (∀ x, x ∈ workflows r' → x ∈ workflows r)
  ∧ (∀ a, a ∈ activities r' → a ∈ activities r).
Proof.
  intros r r' Hne Hnul Hnul' Hsub. subst r r'.
  destruct (decide (normalized q' = "")) as [Hempty'|Hne'].
  { rewrite (search_empty q') by done. cbn [fst playbooks workflows activities].
    split_and!; intros ? []%elem_of_nil. }
  rewrite !search_nonempty by done. cbn [fst]. unfold kept.
  assert (∀ p, p ∈ playbooks (looked_up (normalized q') user (default ∅ filters) (w_db w)) →
               p ∈ playbooks (looked_up (normalized q) user (default ∅ filters) (w_db w)))
    as Hp.
  { intros p. cbn [looked_up playbooks].
    rewrite !_search_playbooks_rows, !list_elem_of_filter.
    unfold playbook_matches. intros [(? & Ht & ?) ?]. split; [|done].
    split_and!; [done| |tauto..].
    destruct Ht as [Ht|Ht]; [left|right];
      by apply (icontains_refine _ _ _ Hnul Hnul' Hsub). }
  assert (∀ x, x ∈ workflows (looked_up (normalized q') user (default ∅ filters) (w_db w)) →
               x ∈ workflows (looked_up (normalized q) user (default ∅ filters) (w_db w)))
    as Hw.
  { intros x. cbn [looked_up workflows].
    rewrite !_search_workflows_rows, !list_elem_of_filter.
    unfold workflow_matches. intros [(? & Ht) ?]. split; [|done]. split; [done|].
    destruct Ht as [Ht|Ht]; [left|right];
      by apply (icontains_refine _ _ _ Hnul Hnul' Hsub). }
  assert (∀ a, a ∈ activities (looked_up (normalized q') user (default ∅ filters) (w_db w)) →
               a ∈ activities (looked_up (normalized q) user (default ∅ filters) (w_db w)))
    as Ha.
  { intros a. cbn [looked_up activities].
    rewrite !_search_activities_rows, !list_elem_of_filter.
    unfold activity_matches. intros [(? & Ht) ?]. split; [|done]. split; [done|].
    destruct Ht as [Ht|Ht]; [left|right];
      by apply (icontains_refine _ _ _ Hnul Hnul' Hsub). }
  repeat (destruct (py_eq_str _ _)); cbn [playbooks workflows activities];
    split_and!; first [done | intros ? []%elem_of_nil].
Qed.

Lemma search_refined_query_narrows_witness :
  normalized (Some "comp") ≠ ""
  ∧ nul_free (normalized (Some "comp"))
  ∧ nul_free (normalized (Some "Component W"))
  ∧ contains_ignoring_case (normalized (Some "Component W")) (normalized (Some "comp"))
    = true
  ∧ (∀ x, x ∈ workflows (search (Some "Component W") Sample.maria None Sample.world).1 →
          x ∈ workflows (search (Some "comp") Sample.maria None Sample.world).1).
Proof.
  assert (normalized (Some "comp") ≠ "") as Hne by (vm_compute; discriminate).
  assert (nul_free (normalized (Some "comp"))) as Hnul by reflexivity.
  assert (nul_free (normalized (Some "Component W"))) as Hnul' by reflexivity.
  assert (contains_ignoring_case (normalized (Some "Component W"))
            (normalized (Some "comp")) = true) as Hsub by reflexivity.
  split_and!; [exact Hne|exact Hnul|exact Hnul'|exact Hsub|].
  exact (proj1 (proj2 (search_refined_query_narrows (Some "comp") (Some "Component W")
                         Sample.maria None Sample.world Hne Hnul Hnul' Hsub))).
Defined.

(** ** What the status and source filters reach *)

(** X3. The status and source filters reach the playbooks only: two
    calls whose filters agree on [type] return the same workflows and the
    same activities, whatever else the filters hold. A workflow of a draft
    playbook is still returned under [status = "active"]. *)
Theorem search_children_ignore_status_and_source
    (query : option string) (user : User) (fs fs' : Filters) (w : World) :
  fs !! "type" = fs' !! "type" →
  workflows (search query user (Some fs) w).1
  = workflows (search query user (Some fs') w).1
  ∧ activities (search query user (Some fs) w).1
    = activities (search query user (Some fs') w).1.
Proof.
  intros Htype. destruct (decide (normalized query = "")).
  - by rewrite !search_empty.
  - rewrite !search_nonempty by done. cbn [fst]. unfold kept.
    change (default ∅ (Some fs)) with fs. change (default ∅ (Some fs')) with fs'.
    rewrite Htype. by repeat (destruct (py_eq_str _ _)).
Qed.

Lemma search_children_ignore_status_and_source_witness :
  let active : Filters := {["status" := PyString "active"]} in
  active !! "type" = (∅ : Filters) !! "type"
  ∧ workflows (search (Some "Component") Sample.maria (Some active) Sample.world).1
    = [Sample.component_workflow]
  ∧ pb_status Sample.component_playbook = "draft".
Proof.
  intros active.
  assert (active !! "type" = (∅ : Filters) !! "type") as Htype by reflexivity.
  split_and!; [exact Htype| |reflexivity].
  rewrite (proj1 (search_children_ignore_status_and_source (Some "Component")
                    Sample.maria active ∅ Sample.world Htype)).
  reflexivity.
Defined.

Lemma restricts_insert (fs : Filters) key s field :
  s ≠ "" → restricts (<[key := PyString s]> fs) key field ↔ field = s.
Proof.
  intros Hs. unfold restricts. rewrite lookup_insert_eq. simpl.
  apply String.eqb_neq in Hs. rewrite Hs. simpl. split; [by intros [= ->]|by intros ->].
Qed.

Lemma restricts_delete (fs : Filters) key field : restricts (delete key fs) key field.
Proof. unfold restricts. by rewrite lookup_delete_eq. Qed.

Lemma restricts_other (fs fs' : Filters) key field :
  fs !! key = fs' !! key → restricts fs key field ↔ restricts fs' key field.
Proof. unfold restricts. by intros ->. Qed.

(** The playbooks returned under one more restriction on a field are the
    playbooks returned without it that have the field's value. *)
Lemma search_playbooks_restricted query user (fs1 fs2 : Filters) w
    (P : Playbook → Prop) `{!∀ p, Decision (P p)} :
  fs1 !! "type" = fs2 !! "type" →
  (∀ p, playbook_matches (normalized query) user fs1 p
        ↔ P p ∧ playbook_matches (normalized query) user fs2 p) →
  playbooks (search query user (Some fs1) w).1
  ≡ₚ filter P (playbooks (search query user (Some fs2) w).1).
Proof.
  intros Htype Hmatch. destruct (decide (normalized query = "")).
  - by rewrite !search_empty.
  - rewrite !search_nonempty by done. cbn [fst]. unfold kept.
    change (default ∅ (Some fs1)) with fs1. change (default ∅ (Some fs2)) with fs2.
    rewrite Htype.
    assert (playbooks (looked_up (normalized query) user fs1 (w_db w))
            ≡ₚ filter P (playbooks (looked_up (normalized query) user fs2 (w_db w))))
      as Hrows.
    { cbn [looked_up playbooks]. rewrite !_search_playbooks_rows.
      rewrite list_filter_filter. by erewrite list_filter_iff. }
    by repeat (destruct (py_eq_str _ _)).
Qed.

(** X4. Filtering by a status keeps, of the playbooks returned without a
    status filter, exactly those with that status; likewise for the
    source. The filter value is any non-empty string. *)
Theorem search_status_source_select
    (query : option string) (user : User) (fs : Filters) (w : World) (s : string) :
  let result filters := (search query user (Some filters) w).1 in
  s ≠ "" →
  playbooks (result (<["status" := PyString s]> fs))
  ≡ₚ filter (fun p => pb_status p = s) (playbooks (result (delete "status" fs)))
  ∧ playbooks (result (<["source" := PyString s]> fs))
    ≡ₚ filter (fun p => pb_source p = s) (playbooks (result (delete "source" fs))).
Proof.
  intros result Hs. subst result. cbn beta. split.
  - apply search_playbooks_restricted.
    + by rewrite lookup_insert_ne, lookup_delete_ne.
    + intros p. unfold playbook_matches.
      rewrite (restricts_insert _ "status") by done.
      pose proof (restricts_delete fs "status" (pb_status p)).
      rewrite (restricts_other (<["status":=PyString s]> fs) (delete "status" fs) "source")
        by by rewrite lookup_insert_ne, lookup_delete_ne.
      tauto.
  - apply search_playbooks_restricted.
    + by rewrite lookup_insert_ne, lookup_delete_ne.
    + intros p. unfold playbook_matches.
      rewrite (restricts_insert _ "source") by done.
      pose proof (restricts_delete fs "source" (pb_source p)).
      rewrite (restricts_other (<["source":=PyString s]> fs) (delete "source" fs) "status")
        by by rewrite lookup_insert_ne, lookup_delete_ne.
      tauto.
Qed.

Lemma search_status_source_select_witness :
  "active" ≠ ""
  ∧ playbooks (search (Some "guide") Sample.maria
                 (Some (<["status" := PyString "active"]> ∅)) Sample.eight).1
    ≡ₚ filter (fun p => pb_status p = "active")
         (playbooks (search (Some "guide") Sample.maria
                       (Some (delete "status" ∅)) Sample.eight).1).
Proof.
  assert ("active" ≠ "") as Hs by discriminate.
  split; [exact Hs|].
  exact (proj1 (search_status_source_select (Some "guide") Sample.maria ∅
                  Sample.eight "active" Hs)).
Defined.

(** ** The scope of the acting user *)

Lemma own_playbooks_filter db user :
  filter (fun p => Is_true (pb_author p =? user_id user)) (db_playbooks db)
  = own_playbooks db user.
Proof.
  apply list_filter_iff. intros p. rewrite Is_true_true. apply Z.eqb_eq.
Qed.

Lemma own_workflows_filter db user :
  filter (fun x => Is_true (bool_decide (workflow_author db x = Some (user_id user))))
    (db_workflows db)
  = own_workflows db user.
Proof. apply list_filter_iff. intros x. apply bool_decide_spec. Qed.

Lemma own_activities_filter db user :
  filter (fun a => Is_true (bool_decide (activity_author db a = Some (user_id user))))
    (db_activities db)
  = own_activities db user.
Proof. apply list_filter_iff. intros a. apply bool_decide_spec. Qed.

(** The three lookups read a database through the rows the user owns. *)
Lemma looked_up_scope query user fs db1 db2 :
  own_playbooks db1 user = own_playbooks db2 user →
  own_workflows db1 user = own_workflows db2 user →
  own_activities db1 user = own_activities db2 user →
  looked_up query user fs db1 = looked_up query user fs db2.
Proof.
  intros Hp Hw Ha. unfold looked_up. f_equal.
  - unfold _search_playbooks.
    destruct (fs !! "status") as [v|]; [destruct (truthy v)|];
      (destruct (fs !! "source") as [v'|]; [destruct (truthy v')|]);
      cbn [qs_rows qs_order_by qs_filter Playbook_objects];
      rewrite !own_playbooks_filter; by rewrite Hp.
  - unfold _search_workflows.
    cbn [qs_rows qs_order_by qs_filter Workflow_objects].
    rewrite !own_workflows_filter. by rewrite Hw.
  - unfold _search_activities.
    cbn [qs_rows qs_order_by qs_filter Activity_objects].
    rewrite !own_activities_filter. by rewrite Ha.
Qed.

Lemma search_reads_own_scope_only_helper query user filters (w1 w2 : World) :
  own_playbooks (w_db w1) user = own_playbooks (w_db w2) user →
  own_workflows (w_db w1) user = own_workflows (w_db w2) user →
  own_activities (w_db w1) user = own_activities (w_db w2) user →
  (search query user filters w1).1 = (search query user filters w2).1.
Proof.
  intros Hp Hw Ha. destruct (decide (normalized query = "")).
  - by rewrite !search_empty.
  - rewrite !search_nonempty by done. cbn [fst].
    by rewrite (looked_up_scope _ _ _ _ _ Hp Hw Ha).
Qed.

(** X5. The result of [search] is a function of the rows the acting user
    owns: on two database states that hold the same playbooks of the user,
    the same workflows of these playbooks and the same activities of these
    workflows, in the same order, every call returns the same three
    sequences, whatever the rows of other users are. *)
Theorem search_reads_own_scope_only
    (query : option string) (user : User) (filters : option Filters) (w1 w2 : World) :
  own_playbooks (w_db w1) user = own_playbooks (w_db w2) user →
  own_workflows (w_db w1) user = own_workflows (w_db w2) user →
  own_activities (w_db w1) user = own_activities (w_db w2) user →
  (search query user filters w1).1 = (search query user filters w2).1.
Proof. apply search_reads_own_scope_only_helper. Qed.

Lemma search_reads_own_scope_only_witness :
  let other := mkPlaybook 7 "Component secrets" "" "development" "active" "owned" 2 500 in
  let w2 := mkWorld (mkDatabase [other; Sample.component_playbook]
                       [Sample.component_workflow] [Sample.create_component]) [] [] in
  own_playbooks (w_db Sample.world) Sample.maria = own_playbooks (w_db w2) Sample.maria
  ∧ own_workflows (w_db Sample.world) Sample.maria = own_workflows (w_db w2) Sample.maria
  ∧ own_activities (w_db Sample.world) Sample.maria = own_activities (w_db w2) Sample.maria
  ∧ (search (Some "Component") Sample.maria None Sample.world).1
    = (search (Some "Component") Sample.maria None w2).1.
Proof.
  intros other w2.
  assert (own_playbooks (w_db Sample.world) Sample.maria
          = own_playbooks (w_db w2) Sample.maria) as Hp by reflexivity.
  assert (own_workflows (w_db Sample.world) Sample.maria
          = own_workflows (w_db w2) Sample.maria) as Hw by reflexivity.
  assert (own_activities (w_db Sample.world) Sample.maria
          = own_activities (w_db w2) Sample.maria) as Ha by reflexivity.
  split_and!; [exact Hp|exact Hw|exact Ha|].
  exact (search_reads_own_scope_only (Some "Component") Sample.maria None
           Sample.world w2 Hp Hw Ha).
Defined.

Lemma find_snoc {A} (f : A → bool) (l : list A) (x : A) :
  List.find f (l ++ [x])
  = match List.find f l with
    | Some y => Some y
    | None => if f x then Some x else None
    end.
Proof.
  induction l as [|y l IH]; simpl; [done|]. by destruct (f y).
Qed.

Lemma workflow_author_with_playbook db p user x :
  pb_author p ≠ user_id user →
  workflow_author (with_playbook p db) x = Some (user_id user)
  ↔ workflow_author db x = Some (user_id user).
Proof.
  intros Hp. unfold workflow_author, playbook_by_id, with_playbook.
  cbn [db_playbooks]. rewrite find_snoc.
  destruct (List.find _ (db_playbooks db)) as [y|]; [done|].
  destruct (pb_id p =? wf_playbook x); simpl; [|done].
  split; [intros [= ?]; done|done].
Qed.

Lemma activity_author_with_playbook db p user a :
  pb_author p ≠ user_id user →
  activity_author (with_playbook p db) a = Some (user_id user)
  ↔ activity_author db a = Some (user_id user).
Proof.
  intros Hp. unfold activity_author.
  change (workflow_by_id (with_playbook p db)) with (workflow_by_id db).
  destruct (workflow_by_id db (act_workflow a)) as [x|]; simpl; [|done].
  by apply workflow_author_with_playbook.
Qed.

(** X6. A playbook created by another user changes nothing in what the
    acting user finds: after a row whose author is not the acting user is
    added to the playbook table, every call returns the same three
    sequences as before, also when workflows already point to the new
    row's key. *)
Theorem search_ignores_playbook_of_other_user
    (query : option string) (user : User) (filters : option Filters) (w : World)
    (p : Playbook) :
  pb_author p ≠ user_id user →
  (search query user filters
     (mkWorld (with_playbook p (w_db w)) (w_log w) (w_queries w))).1
  = (search query user filters w).1.
Proof.
  intros Hp. apply search_reads_own_scope_only_helper; cbn [w_db].
  - unfold own_playbooks, with_playbook. cbn [db_playbooks].
    rewrite filter_app, filter_cons_False, filter_nil, app_nil_r; done.
  - unfold own_workflows. cbn [with_playbook db_workflows].
    apply list_filter_iff. intros x. by apply workflow_author_with_playbook.
  - unfold own_activities. cbn [with_playbook db_activities].
    apply list_filter_iff. intros a. by apply activity_author_with_playbook.
Qed.

Lemma search_ignores_playbook_of_other_user_witness :
  let other := mkPlaybook 7 "Component secrets" "" "development" "active" "owned" 2 500 in
  pb_author other ≠ user_id Sample.maria
  ∧ (search (Some "Component") Sample.maria None
       (mkWorld (with_playbook other Sample.db) [] [])).1
    = mkResults [Sample.component_playbook] [Sample.component_workflow]
        [Sample.create_component].
Proof.
  intros other.
  assert (pb_author other ≠ user_id Sample.maria) as Hp by discriminate.
  split; [exact Hp|].
  etrans; [|reflexivity].
  exact (search_ignores_playbook_of_other_user (Some "Component") Sample.maria None
           Sample.world other Hp).
Defined.

Lemma filter_none {A} (P : A → Prop) `{!∀ x, Decision (P x)} (l : list A) :
  (∀ x, x ∈ l → ¬ P x) → filter P l = [].
Proof.
  intros HP. induction l as [|x l IH]; [done|].
  rewrite filter_cons_False by (apply HP; left).
  apply IH. intros y Hy. apply HP. by right.
Qed.

Lemma find_elem_of {A} (f : A → bool) (l : list A) (x : A) :
  List.find f l = Some x → x ∈ l.
Proof.
  induction l as [|y l IH]; simpl; [done|].
  destruct (f y); [intros [= ->]; left|intros H; right; by apply IH].
Qed.

Lemma own_workflows_without_playbooks db user :
  own_playbooks db user = [] → own_workflows db user = [].
Proof.
  intros Hnone. apply filter_none. intros x _ Hauthor.
  unfold workflow_author in Hauthor. apply fmap_Some in Hauthor as (p & Hfind & Hp).
  apply find_elem_of in Hfind.
  assert (p ∈ own_playbooks db user) as Hin
    by (unfold own_playbooks; apply list_elem_of_filter; by split).
  rewrite Hnone in Hin. by apply elem_of_nil in Hin.
Qed.

Lemma own_activities_without_playbooks db user :
  own_playbooks db user = [] → own_activities db user = [].
Proof.
  intros Hnone. apply filter_none. intros a _ Hauthor.
  unfold activity_author in Hauthor. apply bind_Some in Hauthor as (x & _ & Hauthor).
  unfold workflow_author in Hauthor. apply fmap_Some in Hauthor as (p & Hfind & Hp).
  apply find_elem_of in Hfind.
  assert (p ∈ own_playbooks db user) as Hin
    by (unfold own_playbooks; apply list_elem_of_filter; by split).
  rewrite Hnone in Hin. by apply elem_of_nil in Hin.
Qed.

Lemma looked_up_empty_database query user fs :
  looked_up query user fs (mkDatabase [] [] []) = mkResults [] [] [].
Proof.
  unfold looked_up, _search_playbooks.
  destruct (fs !! "status") as [v|]; [destruct (truthy v)|];
    (destruct (fs !! "source") as [v'|]; [destruct (truthy v')|]); reflexivity.
Qed.

(** X7. A user who is the author of no playbook finds nothing: the three
    sequences are empty for every query and every filters value, also when
    workflows or activities of other users match the query. *)
Theorem search_finds_nothing_without_playbooks
    (query : option string) (user : User) (filters : option Filters) (w : World) :
  own_playbooks (w_db w) user = [] →
  (search query user filters w).1 = mkResults [] [] [].
Proof.
  intros Hnone.
  rewrite (search_reads_own_scope_only_helper query user filters w
             (mkWorld (mkDatabase [] [] []) [] []));
    [|by rewrite Hnone
     |by rewrite own_workflows_without_playbooks
     |by rewrite own_activities_without_playbooks].
  destruct (decide (normalized query = "")).
  - by rewrite search_empty.
  - rewrite search_nonempty by done. cbn [fst w_db].
    rewrite looked_up_empty_database. unfold kept.
    by repeat (destruct (py_eq_str _ _)).
Qed.

Lemma search_finds_nothing_without_playbooks_witness :
  own_playbooks (w_db Sample.world) Sample.sam = []
  ∧ (search (Some "Component") Sample.sam None Sample.world).1 = mkResults [] [] [].
Proof.
  assert (own_playbooks (w_db Sample.world) Sample.sam = []) as Hnone by reflexivity.
  split; [exact Hnone|].
  exact (search_finds_nothing_without_playbooks (Some "Component") Sample.sam None
           Sample.world Hnone).
Defined.

(** * Properties of the search handlers *)

Section handler_runs.
Context (request : HttpRequest) (user : User) (w : World).
Hypothesis Huser : req_user request = Some user.

Local Abbreviation nq := (PyStr.strip (param request "q")).

(** What [global_search] does for an authenticated caller: one call of
    [search] between two log records. *)
Lemma global_search_run :
  let w1 := mkWorld (w_db w)
              (w_log w ++ [LogViewRequested (username user) nq (request_filters request)])
              (w_queries w) in
  let out := search (Some nq) user (Some (request_filters request)) w1 in
  global_search request w
  = (RenderResults
       (mkResultsContext nq (playbooks out.1) (workflows out.1) (activities out.1)
          (param request "type") (param request "status") (param request "source")),
     mkWorld (w_db out.2)
       (w_log out.2 ++ [LogViewCompleted (username user) nq
                          (List.length (playbooks out.1)) (List.length (workflows out.1))
                          (List.length (activities out.1))])
       (w_queries out.2)).
Proof.
  intros w1 out. unfold global_search, login_required. rewrite Huser.
  unfold global_search_view, mbind, M_bind, mret, M_ret.
  cbn [log_info]. fold (param request "q") (param request "type")
    (param request "status") (param request "source").
  fold (request_filters request). fold w1. fold out.
  by destruct out as [r w2].
Qed.

(** What [global_search_suggestions] does for an authenticated caller whose
    query is not blank. *)
Lemma global_search_suggestions_run :
  nq ≠ "" →
  let w1 := mkWorld (w_db w)
              (w_log w ++ [LogSuggestionsRequested (username user) nq]) (w_queries w) in
  let out := search (Some nq) user None w1 in
  global_search_suggestions request w
  = (RenderSuggestions
       (mkSuggestionsContext nq (take 5 (playbooks out.1)) (take 5 (workflows out.1))
          (take 5 (activities out.1))),
     mkWorld (w_db out.2)
       (w_log out.2 ++ [LogSuggestionsLimited (username user) nq
                          (List.length (take 5 (playbooks out.1)))
                          (List.length (take 5 (workflows out.1)))
                          (List.length (take 5 (activities out.1)))])
       (w_queries out.2)).
Proof.
  intros Hne w1 out. unfold global_search_suggestions, login_required. rewrite Huser.
  unfold global_search_suggestions_view. fold (param request "q").
  apply String.eqb_neq in Hne. rewrite Hne.
  unfold mbind, M_bind, mret, M_ret. cbn [log_info]. fold w1. fold out.
  by destruct out as [r w2].
Qed.

Lemma global_search_suggestions_blank :
  nq = "" →
  global_search_suggestions request w
  = (RenderSuggestions (mkSuggestionsContext "" [] [] []),
     mkWorld (w_db w) (w_log w ++ [LogSuggestionsEmptyQuery (username user)])
       (w_queries w)).
Proof.
  intros Hq. unfold global_search_suggestions, login_required. rewrite Huser.
  unfold global_search_suggestions_view. fold (param request "q"). by rewrite Hq.
Qed.

End handler_runs.

(** ** Access control *)

(** X8. Both search handlers answer with the redirect to the login page
    exactly when the caller is anonymous, and an anonymous request leaves
    no trace: nothing is logged and no query is sent to the database. *)
Theorem search_handlers_redirect_anonymous (request : HttpRequest) (w : World) :
  ((global_search request w).1 = RedirectToLogin ↔ req_user request = None)
  ∧ ((global_search_suggestions request w).1 = RedirectToLogin
     ↔ req_user request = None)
  ∧ (req_user request = None →
     (global_search request w).2 = w ∧ (global_search_suggestions request w).2 = w).
Proof.
  destruct (req_user request) as [user|] eqn:Huser.
  - split_and!; [split; [|done]..|done].
    + by rewrite (global_search_run request user w Huser).
    + destruct (decide (PyStr.strip (param request "q") = "")).
      * by rewrite (global_search_suggestions_blank request user w Huser).
      * by rewrite (global_search_suggestions_run request user w Huser).
  - unfold global_search, global_search_suggestions, login_required.
    rewrite Huser. done.
Qed.

(** ** The blank query *)

(** X9. When the [q] parameter is missing or blank, both handlers render
    three empty lists and send no query to the database. The suggestions
    handler does not call the service at all: its only effect is one log
    record of its own. *)
Theorem search_handlers_blank_query (request : HttpRequest) (user : User) (w : World) :
  req_user request = Some user →
  PyStr.strip (param request "q") = "" →
  global_search_suggestions request w
  = (RenderSuggestions (mkSuggestionsContext "" [] [] []),
     mkWorld (w_db w) (w_log w ++ [LogSuggestionsEmptyQuery (username user)])
       (w_queries w))
  ∧ (global_search request w).1
    = RenderResults
        (mkResultsContext "" [] [] [] (param request "type")
           (param request "status") (param request "source"))
  ∧ w_queries (global_search request w).2 = w_queries w.
Proof.
  intros Huser Hq. split; [by apply global_search_suggestions_blank|].
  rewrite (global_search_run request user w Huser). cbn [fst snd w_queries].
  rewrite Hq. by rewrite !search_empty.
Qed.

Lemma search_handlers_blank_query_witness :
  let request := mkRequest (Some Sample.maria) {["type" := "playbooks"]} in
  req_user request = Some Sample.maria
  ∧ PyStr.strip (param request "q") = ""
  ∧ (global_search request Sample.world).1
    = RenderResults (mkResultsContext "" [] [] [] "playbooks" "" "")
  ∧ w_queries (global_search request Sample.world).2 = [].
Proof.
  intros request.
  assert (req_user request = Some Sample.maria) as Huser by reflexivity.
  assert (PyStr.strip (param request "q") = "") as Hq by reflexivity.
  split_and!; [exact Huser|exact Hq|..];
    destruct (search_handlers_blank_query request Sample.maria Sample.world Huser Hq)
      as (_ & Hresponse & Hqueries).
  - rewrite Hresponse. reflexivity.
  - rewrite Hqueries. reflexivity.
Defined.

(** ** Parameters the handlers read *)

(** X10. The suggestions handler reads the caller and the [q] parameter
    only: two requests of the same caller with the same [q] get the same
    answer and have the same effects, whatever [type], [status], [source]
    or other parameters they carry. No filter narrows the suggestions. *)
Theorem suggestions_ignore_other_parameters (request request' : HttpRequest) (w : World) :
  req_user request = req_user request' →
  req_GET request !! "q" = req_GET request' !! "q" →
  global_search_suggestions request w = global_search_suggestions request' w.
Proof.
  intros Huser Hq. unfold global_search_suggestions, login_required.
  rewrite <- Huser. destruct (req_user request) as [user|]; [|done].
  unfold global_search_suggestions_view. by rewrite Hq.
Qed.

Lemma suggestions_ignore_other_parameters_witness :
  let request := mkRequest (Some Sample.maria) {["q" := "Component"]} in
  let request' := with_param "type" "playbooks" request in
  req_user request = req_user request'
  ∧ req_GET request !! "q" = req_GET request' !! "q"
  ∧ (global_search_suggestions request' Sample.world).1
    = RenderSuggestions
        (mkSuggestionsContext "Component" [Sample.component_playbook]
           [Sample.component_workflow] [Sample.create_component])
  ∧ (global_search request' Sample.world).1
    = RenderResults
        (mkResultsContext "Component" [Sample.component_playbook] [] []
           "playbooks" "" "").
Proof.
  intros request request'.
  assert (req_user request = req_user request') as Huser by reflexivity.
  assert (req_GET request !! "q" = req_GET request' !! "q") as Hq by reflexivity.
  split_and!; [exact Huser|exact Hq| |reflexivity].
  rewrite <- (suggestions_ignore_other_parameters request request' Sample.world Huser Hq).
  reflexivity.
Defined.

Lemma param_empty_or_missing request k key :
  param (with_param k "" request) key = param (without_param k request) key.
Proof.
  unfold param, with_param, without_param. cbn [req_GET].
  destruct (decide (k = key)) as [->|Hk].
  - by rewrite lookup_insert_eq, lookup_delete_eq.
  - by rewrite lookup_insert_ne, lookup_delete_ne.
Qed.

(** X11. A parameter present with an empty value is the same as a missing
    parameter, for every key and for both handlers: the answer and the
    effects are the same. So [?status=] filters nothing and [?q=] is the
    blank query. *)
Theorem search_handlers_empty_parameter (request : HttpRequest) (k : string) (w : World) :
  global_search (with_param k "" request) w
  = global_search (without_param k request) w
  ∧ global_search_suggestions (with_param k "" request) w
    = global_search_suggestions (without_param k request) w.
Proof.
  unfold global_search, global_search_suggestions, login_required.
  change (req_user (with_param k "" request)) with (req_user request).
  change (req_user (without_param k request)) with (req_user request).
  destruct (req_user request) as [user|]; [|done].
  unfold global_search_view, global_search_suggestions_view.
  fold (param (with_param k "" request) "q") (param (with_param k "" request) "type")
    (param (with_param k "" request) "status") (param (with_param k "" request) "source").
  fold (param (without_param k request) "q") (param (without_param k request) "type")
    (param (without_param k request) "status") (param (without_param k request) "source").
  by rewrite !param_empty_or_missing.
Qed.

(** ** Effects of the handlers *)

(** X12. Both search handlers are read-only: whatever the request, the
    database state after the call is the state before it. *)
Theorem search_handlers_read_only (request : HttpRequest) (w : World) :
  w_db (global_search request w).2 = w_db w
  ∧ w_db (global_search_suggestions request w).2 = w_db w.
Proof.
  destruct (req_user request) as [user|] eqn:Huser.
  - split.
    + rewrite (global_search_run request user w Huser). cbn [snd w_db].
      by rewrite search_db_unchanged.
    + destruct (decide (PyStr.strip (param request "q") = "")).
      * by rewrite (global_search_suggestions_blank request user w Huser).
      * rewrite (global_search_suggestions_run request user w Huser) by done.
        cbn [snd w_db]. by rewrite search_db_unchanged.
  - unfold global_search, global_search_suggestions, login_required.
    by rewrite Huser.
Qed.

(** ** The request parameters as filters *)

Lemma request_filters_lookup request key :
  key ∈ known_filter_keys →
  request_filters request !! key
  = if String.eqb (param request key) "" then None
    else Some (PyString (param request key)).
Proof.
  unfold known_filter_keys. rewrite !elem_of_cons, elem_of_nil.
  unfold request_filters, set_if_nonempty.
  intros [->|[->|[->|[]]]];
    destruct (String.eqb (param request "type") "");
    destruct (String.eqb (param request "status") "");
    destruct (String.eqb (param request "source") "");
    by rewrite ?lookup_insert_eq, ?lookup_insert_ne, ?lookup_insert_eq, ?lookup_insert_ne,
         ?lookup_insert_eq, ?lookup_empty by done.
Qed.

Lemma search_playbook_matches query user filters w p :
  p ∈ playbooks (search query user filters w).1 →
  playbook_matches (normalized query) user (default ∅ filters) p.
Proof.
  intros Hin. destruct (search_lists query user filters w) as ([Hp|Hp] & _);
    rewrite Hp in Hin; [|by apply elem_of_nil in Hin].
  cbn [looked_up playbooks] in Hin.
  rewrite _search_playbooks_rows, list_elem_of_filter in Hin. tauto.
Qed.

Lemma search_type_selects query user (fs : Filters) w :
  let r := (search query user (Some fs) w).1 in
  (fs !! "type" = Some (PyString "playbooks") → workflows r = [] ∧ activities r = [])
  ∧ (fs !! "type" = Some (PyString "workflows") → playbooks r = [] ∧ activities r = [])
  ∧ (fs !! "type" = Some (PyString "activities") → playbooks r = [] ∧ workflows r = []).
Proof.
  intros r. subst r. destruct (decide (normalized query = "")).
  - by rewrite !search_empty.
  - rewrite search_nonempty by done. cbn [fst]. unfold kept.
    change (default ∅ (Some fs)) with fs. split_and!; by intros ->.
Qed.

(** X13. The full-results handler applies the request parameters: for an
    authenticated caller every playbook rendered is one of the caller's,
    has the status the [status] parameter names and the source the
    [source] parameter names, when these are not empty; and under
    [type=playbooks], [type=workflows] or [type=activities] the two other
    lists rendered are empty. *)
Theorem global_search_applies_parameters (request : HttpRequest) (user : User) (w : World) :
  req_user request = Some user →
  ∃ context,
    (global_search request w).1 = RenderResults context
    ∧ rc_query context = PyStr.strip (param request "q")
    ∧ (∀ p, p ∈ rc_playbooks context →
         pb_author p = user_id user
         ∧ (param request "status" ≠ "" → pb_status p = param request "status")
         ∧ (param request "source" ≠ "" → pb_source p = param request "source"))
    ∧ (param request "type" = "playbooks" →
       rc_workflows context = [] ∧ rc_activities context = [])
    ∧ (param request "type" = "workflows" →
       rc_playbooks context = [] ∧ rc_activities context = [])
    ∧ (param request "type" = "activities" →
       rc_playbooks context = [] ∧ rc_workflows context = []).
Proof.
  intros Huser. rewrite (global_search_run request user w Huser). cbn [fst].
  eexists. split; [reflexivity|].
  cbn [rc_query rc_playbooks rc_workflows rc_activities].
  assert (∀ key, key ∈ known_filter_keys → param request key ≠ "" →
            request_filters request !! key = Some (PyString (param request key)))
    as Hlookup.
  { intros key Hkey Hne. rewrite request_filters_lookup by done.
    apply String.eqb_neq in Hne. by rewrite Hne. }
  assert (∀ key field, key ∈ known_filter_keys → param request key ≠ "" →
            restricts (request_filters request) key field → field = param request key)
    as Hrestricts.
  { intros key field Hkey Hne. unfold restricts. rewrite Hlookup by done.
    simpl. apply String.eqb_neq in Hne. rewrite Hne. simpl. by intros [= ->]. }
  match goal with
  | |- context [search ?q ?u ?f ?w1] =>
      pose proof (search_type_selects q u (request_filters request) w1)
        as (Hplaybooks & Hworkflows & Hactivities);
      pose proof (fun p => search_playbook_matches q u f w1 p) as Hmatch
  end.
  split_and!.
  - done.
  - intros p (Hauthor & _ & Hstatus & Hsource)%Hmatch. split_and!.
    + done.
    + intros Hne. by apply (Hrestricts "status"); [compute_done|..].
    + intros Hne. by apply (Hrestricts "source"); [compute_done|..].
  - intros Htype. apply Hplaybooks. rewrite Hlookup; [by rewrite Htype|compute_done|].
    by rewrite Htype.
  - intros Htype. apply Hworkflows. rewrite Hlookup; [by rewrite Htype|compute_done|].
    by rewrite Htype.
  - intros Htype. apply Hactivities. rewrite Hlookup; [by rewrite Htype|compute_done|].
    by rewrite Htype.
Qed.

Lemma global_search_applies_parameters_witness :
  let request :=
    mkRequest (Some Sample.maria)
      {["q" := "guide"; "status" := "active"; "type" := "playbooks"]} in
  req_user request = Some Sample.maria
  ∧ ∃ context,
      (global_search request Sample.eight).1 = RenderResults context
      ∧ List.length (rc_playbooks context) = 8%nat
      ∧ (∀ p, p ∈ rc_playbooks context → pb_status p = "active")
      ∧ rc_workflows context = [].
Proof.
  intros request.
  assert (req_user request = Some Sample.maria) as Huser by reflexivity.
  split; [exact Huser|].
  destruct (global_search_applies_parameters request Sample.maria Sample.eight Huser)
    as (context & Hresponse & _ & Hplaybooks & Htype & _).
  exists context. split_and!.
  - exact Hresponse.
  - vm_compute in Hresponse. injection Hresponse as <-. reflexivity.
  - intros p Hp. apply (Hplaybooks p Hp). discriminate.
  - apply Htype. reflexivity.
Defined.

(** * Properties of the dashboard handlers *)

Lemma length_filter_impl {A} (P Q : A → Prop)
    `{!∀ x, Decision (P x), !∀ x, Decision (Q x)} (l : list A) :
  (∀ x, P x → Q x) → (List.length (filter P l) ≤ List.length (filter Q l))%nat.
Proof.
  intros HPQ. rewrite <- (list_filter_filter_l P Q l HPQ). apply length_filter.
Qed.

Section dashboard_properties.
Import Dashboard.
Context (get_recent_activities : User → nat → V (PyExc + list Activity)).
Context (py_int : string → option Z).

Lemma by_recency_rows user db : qs_rows (by_recency user) db ≡ₚ own_playbooks db user.
Proof.
  unfold by_recency. cbn [qs_rows qs_order_by qs_filter Playbook_objects].
  by rewrite stable_sort_Permutation, own_playbooks_filter.
Qed.

Lemma by_recency_sorted user db :
  StronglySorted by_updated_desc (qs_rows (by_recency user) db).
Proof. unfold by_recency. simpl. apply StronglySorted_stable_sort; apply _. Qed.

(** What [dashboard] does when the activity service returns. *)
Lemma dashboard_run request user s acts s2 :
  req_user request = Some user →
  get_recent_activities user 10 (entered (InfoDashboardAccess (username user)) s)
  = (inr acts, s2) →
  let db := w_db (site_world s2) in
  let playbook_count := List.length (own_playbooks db user) in
  let activity_count := List.length (own_activities db user) in
  dashboard get_recent_activities request s
  = (RenderDashboard
       (mkDashboardContext (Lazy (qs_slice 5 (by_recency user))) acts
          activity_count playbook_count None),
     mkSite
       (mkWorld db (w_log (site_world s2))
          (w_queries (site_world s2) ++ [MPlaybook; MActivity]))
       (site_log s2 ++ [InfoDashboardLoaded (username user) playbook_count
                          activity_count])).
Proof.
  intros Huser Hservice db playbook_count activity_count.
  unfold dashboard, login_required. rewrite Huser.
  unfold dashboard_view, mbind, V_bind, mret, V_ret. cbn [log_record].
  fold (entered (InfoDashboardAccess (username user)) s). rewrite Hservice.
  unfold on_world, count_qs.
  cbn [site_world site_log w_db w_log w_queries qs_rows qs_model qs_filter
       Playbook_objects Activity_objects log_record].
  rewrite own_playbooks_filter, own_activities_filter, <- app_assoc. done.
Qed.

(** X14. When the activity service returns, the dashboard counts the
    playbooks of the caller and the activities of the caller's playbooks,
    and its recent playbooks are the five most recently updated playbooks
    of the caller, most recent first: they are at most five, as many as
    the caller has below five, and no playbook of the caller left out is
    more recent than one shown. *)
Theorem dashboard_shows_five_most_recent
    (request : HttpRequest) (user : User) (s s2 : Site) (acts : list Activity) :
  req_user request = Some user →
  get_recent_activities user 10 (entered (InfoDashboardAccess (username user)) s)
  = (inr acts, s2) →
  let db := w_db (site_world s2) in
  ∃ context rest,
    (dashboard get_recent_activities request s).1 = RenderDashboard context
    ∧ recent_activities context = acts
    ∧ error_message context = None
    ∧ playbook_count context = List.length (own_playbooks db user)
    ∧ activity_count context = List.length (own_activities db user)
    ∧ w_db (site_world (dashboard get_recent_activities request s).2) = db
    ∧ rows_on db (recent_playbooks context) ++ rest ≡ₚ own_playbooks db user
    ∧ List.length (rows_on db (recent_playbooks context))
      = (5 `min` playbook_count context)%nat
    ∧ StronglySorted by_updated_desc (rows_on db (recent_playbooks context))
    ∧ (∀ p p', p ∈ rows_on db (recent_playbooks context) → p' ∈ rest →
               pb_updated_at p' ≤ pb_updated_at p).
Proof.
  intros Huser Hservice db.
  rewrite (dashboard_run request user s acts s2 Huser Hservice). fold db.
  exists (mkDashboardContext (Lazy (qs_slice 5 (by_recency user))) acts
            (List.length (own_activities db user))
            (List.length (own_playbooks db user)) None),
         (drop 5 (qs_rows (by_recency user) db)).
  cbn [fst snd recent_activities error_message playbook_count activity_count
       recent_playbooks rows_on qs_slice qs_rows site_world w_db].
  pose proof (by_recency_sorted user db) as Hsorted.
  rewrite <- (take_drop 5 (qs_rows (by_recency user) db)) in Hsorted.
  apply StronglySorted_app in Hsorted as (Hbelow & Hshown & _).
  split_and!; [done..| | |done|].
  - by rewrite take_drop, by_recency_rows.
  - by rewrite length_take, (Permutation_length (by_recency_rows user db)).
  - intros p p' Hp Hp'. by apply Hbelow.
Qed.

(** What [dashboard] does when the activity service raises. *)
Lemma dashboard_run_error request user s e s2 :
  req_user request = Some user →
  get_recent_activities user 10 (entered (InfoDashboardAccess (username user)) s)
  = (inl e, s2) →
  dashboard get_recent_activities request s
  = (RenderDashboard
       (mkDashboardContext (Plain []) [] 0 0 (Some "Unable to load some dashboard data")),
     entered (ErrorDashboard (username user) e) s2).
Proof.
  intros Huser Hservice. unfold dashboard, login_required. rewrite Huser.
  unfold dashboard_view, mbind, V_bind, mret, V_ret. cbn [log_record].
  fold (entered (InfoDashboardAccess (username user)) s).
  by rewrite Hservice.
Qed.

(** X15. When the dashboard renders without its error message, its counts
    bound what [search] returns to the same caller on the database state
    the dashboard leaves: no query and no filters give more playbooks than
    the playbook count, or more activities than the activity count. (With
    the error message the counts are zero and bound nothing.) *)
Theorem dashboard_counts_bound_search
    (request : HttpRequest) (user : User) (s : Site) (context : DashboardContext)
    (query : option string) (filters : option Filters) (w : World) :
  req_user request = Some user →
  (dashboard get_recent_activities request s).1 = RenderDashboard context →
  error_message context = None →
  w_db w = w_db (site_world (dashboard get_recent_activities request s).2) →
  (List.length (playbooks (search query user filters w).1)
   ≤ playbook_count context)%nat
  ∧ (List.length (activities (search query user filters w).1)
     ≤ activity_count context)%nat.
Proof.
  intros Huser.
  destruct (get_recent_activities user 10
              (entered (InfoDashboardAccess (username user)) s))
    as [[e|acts] s2] eqn:Hservice.
  { rewrite (dashboard_run_error request user s e s2 Huser Hservice).
    cbn [fst]. by intros [= <-]. }
  rewrite (dashboard_run request user s acts s2 Huser Hservice).
  cbn [fst snd site_world w_db]. intros [= <-] _ Hdb.
  cbn [playbook_count activity_count]. rewrite <- Hdb.
  destruct (search_lists query user filters w) as ([Hp|Hp] & _ & [Ha|Ha]);
    rewrite Hp, Ha; cbn [looked_up playbooks activities List.length];
    rewrite ?(Permutation_length (_search_playbooks_rows _ _ _ _)),
            ?(Permutation_length (_search_activities_rows _ _ _ _));
    (split; [first [apply length_filter_impl; by intros ? (? & _) | lia]
            |first [apply length_filter_impl; by intros ? (? & _) | lia]]).
Qed.

(** X16. The feed handler parses [hours] and does not use it. When the
    parameter is not an integer literal the handler answers with an empty
    feed, and the activity service is not called: the only effects are the
    handler's two log records. When it is one, the answer and the effects
    are those of the request without the parameter. *)
Theorem dashboard_activities_hours
    (request : HttpRequest) (user : User) (s : Site) (literal : string) :
  req_user request = Some user →
  req_GET request !! "hours" = Some literal →
  (py_int literal = None →
   dashboard_activities get_recent_activities py_int request s
   = (RenderActivityFeed [],
      mkSite (site_world s)
        (site_log s ++ [InfoFeedRequested (username user);
                        ErrorFeed (username user) (ValueError literal)])))
  ∧ (is_Some (py_int literal) →
     dashboard_activities get_recent_activities py_int request s
     = dashboard_activities get_recent_activities py_int
         (without_param "hours" request) s).
Proof.
  intros Huser Hhours. unfold dashboard_activities, login_required.
  change (req_user (without_param "hours" request)) with (req_user request).
  rewrite Huser. unfold dashboard_activities_view.
  cbn [without_param req_GET]. rewrite Hhours, lookup_delete_eq. split.
  - intros ->. unfold mbind, V_bind, mret, V_ret. cbn [log_record site_world site_log].
    by rewrite <- app_assoc.
  - by intros [n ->].
Qed.

(** X17. When the activity service raises, both handlers still answer.
    The dashboard renders empty lists, zero counts and its error message,
    and counts nothing in the database: its only effect after the service
    is one error record. The feed renders an empty list and ends with one
    error record, whatever the [hours] parameter is; when [hours] is
    missing or an integer literal the record is that of the service's
    exception. *)
Theorem dashboard_handlers_survive_service_error
    (request : HttpRequest) (user : User) (s : Site) :
  req_user request = Some user →
  (∀ e s2,
     get_recent_activities user 10 (entered (InfoDashboardAccess (username user)) s)
     = (inl e, s2) →
     dashboard get_recent_activities request s
     = (RenderDashboard
          (mkDashboardContext (Plain []) [] 0 0
             (Some "Unable to load some dashboard data")),
        entered (ErrorDashboard (username user) e) s2))
  ∧ (∀ e s2,
       get_recent_activities user 10 (entered (InfoFeedRequested (username user)) s)
       = (inl e, s2) →
       (dashboard_activities get_recent_activities py_int request s).1
       = RenderActivityFeed []
       ∧ (∃ e' s',
            (dashboard_activities get_recent_activities py_int request s).2
            = entered (ErrorFeed (username user) e') s')
       ∧ ((∀ literal, req_GET request !! "hours" = Some literal →
                      is_Some (py_int literal)) →
          (dashboard_activities get_recent_activities py_int request s).2
          = entered (ErrorFeed (username user) e) s2)).
Proof.
  intros Huser. split.
  - intros e s2 Hservice. unfold dashboard, login_required. rewrite Huser.
    unfold dashboard_view, mbind, V_bind, mret, V_ret. cbn [log_record].
    fold (entered (InfoDashboardAccess (username user)) s).
    by rewrite Hservice.
  - intros e s2 Hservice. unfold dashboard_activities, login_required.
    rewrite Huser. unfold dashboard_activities_view, mbind, V_bind, mret, V_ret.
    cbn [log_record]. fold (entered (InfoFeedRequested (username user)) s).
    destruct (req_GET request !! "hours") as [literal|] eqn:Hhours.
    + destruct (py_int literal) as [n|] eqn:Hint.
      * rewrite Hservice. cbn [log_record fst snd]. split_and!; [done|by eexists _, _|done].
      * cbn [log_record fst snd]. split_and!; [done|by eexists _, _|].
        intros Hparses. destruct (Hparses literal eq_refl) as [n Hn]. congruence.
    + rewrite Hservice. cbn [log_record fst snd]. split_and!; [done|by eexists _, _|done].
Qed.

End dashboard_properties.

Lemma dashboard_shows_five_most_recent_witness :
  let request := mkRequest (Some Sample.maria) ∅ in
  let s2 := Dashboard.entered (Dashboard.InfoDashboardAccess "maria") DashboardSample.site in
  req_user request = Some Sample.maria
  ∧ DashboardSample.first_activities Sample.maria 10 s2 = (inr [], s2)
  ∧ ∃ context,
      (Dashboard.dashboard DashboardSample.first_activities request
         DashboardSample.site).1 = Dashboard.RenderDashboard context
      ∧ Dashboard.playbook_count context = 8%nat
      ∧ pb_id <$> Dashboard.rows_on (w_db Sample.eight) (Dashboard.recent_playbooks context)
        = [8; 7; 6; 5; 4].
Proof.
  intros request s2.
  assert (req_user request = Some Sample.maria) as Huser by reflexivity.
  assert (DashboardSample.first_activities Sample.maria 10 s2 = (inr [], s2))
    as Hservice by reflexivity.
  split_and!; [exact Huser|exact Hservice|].
  destruct (dashboard_shows_five_most_recent DashboardSample.first_activities request
              Sample.maria DashboardSample.site s2 [] Huser Hservice)
    as (context & rest & Hresponse & _ & _ & Hcount & _).
  exists context. split_and!; [exact Hresponse|rewrite Hcount; reflexivity|].
  vm_compute in Hresponse. injection Hresponse as <-. reflexivity.
Defined.

Lemma dashboard_counts_bound_search_witness :
  let request := mkRequest (Some Sample.maria) ∅ in
  let context :=
    Dashboard.mkDashboardContext
      (Dashboard.Lazy (Dashboard.qs_slice 5 (Dashboard.by_recency Sample.maria)))
      [] 0 8 None in
  req_user request = Some Sample.maria
  ∧ (Dashboard.dashboard DashboardSample.first_activities request
       DashboardSample.site).1 = Dashboard.RenderDashboard context
  ∧ Dashboard.error_message context = None
  ∧ w_db Sample.eight
    = w_db (Dashboard.site_world
              (Dashboard.dashboard DashboardSample.first_activities request
                 DashboardSample.site).2)
  ∧ (List.length (playbooks (search (Some "guide") Sample.maria None Sample.eight).1)
     ≤ 8)%nat.
Proof.
  intros request context.
  assert (req_user request = Some Sample.maria) as Huser by reflexivity.
  assert ((Dashboard.dashboard DashboardSample.first_activities request
             DashboardSample.site).1 = Dashboard.RenderDashboard context)
    as Hresponse by reflexivity.
  assert (Dashboard.error_message context = None) as Herror by reflexivity.
  assert (w_db Sample.eight
          = w_db (Dashboard.site_world
                    (Dashboard.dashboard DashboardSample.first_activities request
                       DashboardSample.site).2)) as Hdb by reflexivity.
  split_and!; [exact Huser|exact Hresponse|exact Herror|exact Hdb|].
  exact (proj1 (dashboard_counts_bound_search DashboardSample.first_activities request
                  Sample.maria DashboardSample.site context (Some "guide") None
                  Sample.eight Huser Hresponse Herror Hdb)).
Defined.

Lemma dashboard_activities_hours_witness :
  let request := mkRequest (Some Sample.maria) {["hours" := "soon"]} in
  req_user request = Some Sample.maria
  ∧ req_GET request !! "hours" = Some "soon"
  ∧ DashboardSample.int_of_sample "soon" = None
  ∧ Dashboard.dashboard_activities DashboardSample.first_activities
      DashboardSample.int_of_sample request DashboardSample.site
    = (Dashboard.RenderActivityFeed [],
       Dashboard.mkSite Sample.eight
         [Dashboard.InfoFeedRequested "maria";
          Dashboard.ErrorFeed "maria" (Dashboard.ValueError "soon")]).
Proof.
  intros request.
  assert (req_user request = Some Sample.maria) as Huser by reflexivity.
  assert (req_GET request !! "hours" = Some "soon") as Hhours by reflexivity.
  assert (DashboardSample.int_of_sample "soon" = None) as Hint by reflexivity.
  split_and!; [exact Huser|exact Hhours|exact Hint|].
  exact (proj1 (dashboard_activities_hours DashboardSample.first_activities
                  DashboardSample.int_of_sample request Sample.maria
                  DashboardSample.site "soon" Huser Hhours) Hint).
Defined.

Lemma dashboard_handlers_survive_service_error_witness :
  let request := mkRequest (Some Sample.maria) {["hours" := "24"]} in
  let s2 := Dashboard.entered (Dashboard.InfoDashboardAccess "maria") DashboardSample.site in
  let s2' := Dashboard.entered (Dashboard.InfoFeedRequested "maria") DashboardSample.site in
  let e := Dashboard.ServiceError "unavailable" in
  req_user request = Some Sample.maria
  ∧ DashboardSample.unavailable Sample.maria 10 s2 = (inl e, s2)
  ∧ DashboardSample.unavailable Sample.maria 10 s2' = (inl e, s2')
  ∧ (Dashboard.dashboard DashboardSample.unavailable request DashboardSample.site).1
    = Dashboard.RenderDashboard
        (Dashboard.mkDashboardContext (Dashboard.Plain []) [] 0 0
           (Some "Unable to load some dashboard data"))
  ∧ (Dashboard.dashboard_activities DashboardSample.unavailable
       DashboardSample.int_of_sample request DashboardSample.site).1
    = Dashboard.RenderActivityFeed [].
Proof.
  intros request s2 s2' e.
  assert (req_user request = Some Sample.maria) as Huser by reflexivity.
  assert (DashboardSample.unavailable Sample.maria 10 s2 = (inl e, s2)) as H1
    by reflexivity.
  assert (DashboardSample.unavailable Sample.maria 10 s2' = (inl e, s2')) as H2
    by reflexivity.
  split_and!; [exact Huser|exact H1|exact H2|..];
    destruct (dashboard_handlers_survive_service_error DashboardSample.unavailable
                DashboardSample.int_of_sample request Sample.maria
                DashboardSample.site Huser) as [Hdashboard Hfeed].
  - by rewrite (Hdashboard e s2 H1).
  - exact (proj1 (Hfeed e s2' H2)).
Defined.

(** * What the suggestions show *)

Lemma first_rows {A} (R : relation A) (n : nat) (sorted rows : list A) :
  StronglySorted R sorted → sorted ≡ₚ rows →
  take n sorted ++ drop n sorted ≡ₚ rows
  ∧ List.length (take n sorted) = (n `min` List.length rows)%nat
  ∧ StronglySorted R (take n sorted)
  ∧ (∀ x y, x ∈ take n sorted → y ∈ drop n sorted → R x y).
Proof.
  intros Hsorted Hrows. rewrite <- (take_drop n sorted) in Hsorted.
  apply StronglySorted_app in Hsorted as (Hbelow & Hshown & _).
  split_and!; [by rewrite take_drop|by rewrite length_take, Hrows|done|done].
Qed.

Lemma search_without_filters query user w :
  normalized query ≠ "" →
  (search query user None w).1 = looked_up (normalized query) user ∅ (w_db w).
Proof.
  intros Hne. rewrite search_nonempty by done. cbn [fst].
  change (default ∅ None) with (∅ : Filters). unfold kept.
  rewrite lookup_empty. by destruct (looked_up _ _ _ _).
Qed.

(** X18. For an authenticated caller and a query that is not blank, the
    suggestions are the head of the full result. When neither the query
    nor the stored text holds a NUL character, the playbooks shown are the
    five most recently updated matching playbooks of the caller, most
    recent first, the workflows shown are the first five matching workflows
    by parent playbook and [order], and the activities shown the first five
    matching activities by parent workflow and [order]; each list has five
    entries, or all the matches when there are fewer. *)
Theorem suggestions_show_first_matches (request : HttpRequest) (user : User) (w : World) :
  let q := PyStr.strip (param request "q") in
  let db := w_db w in
  req_user request = Some user →
  q ≠ "" →
  nul_free q →
  text_nul_free db →
  ∃ context more_playbooks more_workflows more_activities,
    (global_search_suggestions request w).1 = RenderSuggestions context
    ∧ (sc_playbooks context ++ more_playbooks
       ≡ₚ filter (playbook_fits q user ∅) (db_playbooks db)
       ∧ List.length (sc_playbooks context)
         = (5 `min` List.length (filter (playbook_fits q user ∅) (db_playbooks db)))%nat
       ∧ StronglySorted by_updated_desc (sc_playbooks context)
       ∧ (∀ p p', p ∈ sc_playbooks context → p' ∈ more_playbooks →
                  by_updated_desc p p'))
    ∧ (sc_workflows context ++ more_workflows
       ≡ₚ filter (workflow_fits db q user) (db_workflows db)
       ∧ List.length (sc_workflows context)
         = (5 `min` List.length (filter (workflow_fits db q user) (db_workflows db)))%nat
       ∧ StronglySorted by_playbook_order (sc_workflows context)
       ∧ (∀ x x', x ∈ sc_workflows context → x' ∈ more_workflows →
                  by_playbook_order x x'))
    ∧ (sc_activities context ++ more_activities
       ≡ₚ filter (activity_fits db q user) (db_activities db)
       ∧ List.length (sc_activities context)
         = (5 `min` List.length (filter (activity_fits db q user) (db_activities db)))%nat
       ∧ StronglySorted by_workflow_order (sc_activities context)
       ∧ (∀ a a', a ∈ sc_activities context → a' ∈ more_activities →
                  by_workflow_order a a')).
Proof.
  intros q db Huser Hne Hnul Hdb.
  rewrite (global_search_suggestions_run request user w Huser Hne). cbn [fst].
  rewrite search_without_filters by (by rewrite normalized_strip).
  rewrite normalized_strip. cbn [w_db]. fold q db.
  eexists _, (drop 5 (playbooks (looked_up q user ∅ db))),
    (drop 5 (workflows (looked_up q user ∅ db))),
    (drop 5 (activities (looked_up q user ∅ db))).
  split; [reflexivity|].
  cbn [sc_playbooks sc_workflows sc_activities looked_up playbooks workflows activities].
  rewrite <- (playbook_fits_rows q user ∅ db), <- (workflow_fits_rows q user db),
    <- (activity_fits_rows q user db) by done.
  split; [|split].
  - apply first_rows; [apply _search_playbooks_sorted|apply _search_playbooks_rows].
  - apply first_rows; [apply _search_workflows_sorted|apply _search_workflows_rows].
  - apply first_rows; [apply _search_activities_sorted|apply _search_activities_rows].
Qed.

Lemma text_nul_free_eight : text_nul_free (w_db Sample.eight).
Proof. repeat split; repeat constructor. Qed.

Lemma suggestions_show_first_matches_witness :
  let request := mkRequest (Some Sample.maria) {["q" := "guide"]} in
  req_user request = Some Sample.maria
  ∧ PyStr.strip (param request "q") ≠ ""
  ∧ nul_free (PyStr.strip (param request "q"))
  ∧ text_nul_free (w_db Sample.eight)
  ∧ ∃ context more,
      (global_search_suggestions request Sample.eight).1 = RenderSuggestions context
      ∧ pb_id <$> sc_playbooks context = [8; 7; 6; 5; 4]
      ∧ (∀ p p', p ∈ sc_playbooks context → p' ∈ more → by_updated_desc p p')
      ∧ List.length more = 3%nat.
Proof.
  intros request.
  assert (req_user request = Some Sample.maria) as Huser by reflexivity.
  assert (PyStr.strip (param request "q") ≠ "") as Hne by (vm_compute; discriminate).
  assert (nul_free (PyStr.strip (param request "q"))) as Hnul by reflexivity.
  pose proof text_nul_free_eight as Hdb.
  split_and!; [exact Huser|exact Hne|exact Hnul|exact Hdb|].
  destruct (suggestions_show_first_matches request Sample.maria Sample.eight Huser Hne
              Hnul Hdb)
    as (context & more & _ & _ & Hresponse & (Hall & Hlen & _ & Hbelow) & _).
  exists context, more. split_and!; [exact Hresponse| |exact Hbelow|].
  - vm_compute in Hresponse. injection Hresponse as <-. reflexivity.
  - apply Permutation_length in Hall. rewrite length_app, Hlen in Hall.
    vm_compute in Hall. by injection Hall.
Defined.
